(** * lab5-netman: the address codec (NMtcpdump.py), the SNMP table
    decoder (NMsnmp.py) and the reading of the routers' output
    (NMdhcpserver.py), embedded as Rocq functions.

    Python values are modelled as follows: [int] is [Z], [str] is [string]
    (a string of bytes; the text handled here is ASCII), a list is a [list],
    a [dict] keyed by strings is a [gmap string _], a [set] is the list of its
    elements in iteration order, and a computation that can raise is a
    [result]. *)

From Stdlib Require Import ZArith List Ascii String Lia.
From Stdlib Require HexString.
From stdpp Require Import gmap strings list sorting pretty.

Local Open Scope string_scope.
Local Open Scope Z_scope.

(** ** Exceptions *)

Inductive exn : Set :=
| ValueError
| IndexError
| AddrFormatError.

Inductive result (A : Type) : Type :=
| Ok (a : A)
| Raise (e : exn).
Arguments Ok {A} a.
Arguments Raise {A} e.

#[global] Instance result_ret : MRet result := @Ok.
#[global] Instance result_bind : MBind result := λ A B k r,
  match r with
  | Ok a => k a
  | Raise e => Raise e
  end.

(** ** The Python built-ins the scripts use *)

Module Py.

(** [s.startswith(pre)] *)
Fixpoint startswith (pre s : string) : bool :=
  match pre, s with
  | "", _ => true
  | String _ _, "" => false
  | String a pre', String b s' => Ascii.eqb a b && startswith pre' s'
  end.

(** [sub in s] *)
Fixpoint contains (sub s : string) : bool :=
  startswith sub s ||
  match s with
  | "" => false
  | String _ s' => contains sub s'
  end.

(** [s[n:]] on a string *)
Fixpoint str_drop (n : nat) (s : string) : string :=
  match n, s with
  | O, _ => s
  | S _, "" => ""
  | S k, String _ s' => str_drop k s'
  end.

(** [s.split(sep)] for a one-character separator: never the empty list. *)
Fixpoint split (sep : ascii) (s : string) : list string :=
  match s with
  | "" => [""]
  | String c s' =>
      if Ascii.eqb c sep then "" :: split sep s'
      else match split sep s' with
           | p :: ps => String c p :: ps
           | [] => [String c ""]
           end
  end.

(** [sep.join(l)] *)
Definition join (sep : string) (l : list string) : string := String.concat sep l.

(** [l[lo:hi]] for [0 <= lo <= hi], clipped to the list as Python does. *)
Definition slice {A} (lo hi : nat) (l : list A) : list A :=
  take (hi - lo) (drop lo l).

(** [l[-n:]] for [n > 0]: the last [n] elements, the whole list when it is
    shorter. *)
Definition last_n {A} (n : nat) (l : list A) : list A :=
  drop (length l - n) l.

(** [s.replace(old, new)] for a non-empty [old]: occurrences are found left
    to right and do not overlap. [skip] counts the characters of a matched
    occurrence that are still to be passed over. *)
Fixpoint replace_from (old new : string) (skip : nat) (s : string) : string :=
  match s with
  | "" => ""
  | String c s' =>
      match skip with
      | S k => replace_from old new k s'
      | O =>
          if startswith old s
          then new +:+ replace_from old new (String.length old - 1) s'
          else String c (replace_from old new 0 s')
      end
  end.

Definition replace (old new s : string) : string := replace_from old new 0 s.

(** [s.lower()] on ASCII text. *)
Definition lower_char (c : ascii) : ascii :=
  let n := nat_of_ascii c in
  if ((65 <=? n) && (n <=? 90))%nat then ascii_of_nat (n + 32) else c.

Fixpoint lower (s : string) : string :=
  match s with
  | "" => ""
  | String c s' => String (lower_char c) (lower s')
  end.

(** [int(s)] in base 10, [None] standing for [ValueError]: surrounding
    white space, an optional sign, then decimal digits in which single
    underscores may separate digits. Only ASCII digits and ASCII white space
    are recognised. *)
Definition is_space (c : ascii) : bool :=
  let n := nat_of_ascii c in
  ((n =? 32) || ((9 <=? n) && (n <=? 13)) || ((28 <=? n) && (n <=? 31)))%nat.

Definition is_digit (c : ascii) : bool :=
  let n := nat_of_ascii c in ((48 <=? n) && (n <=? 57))%nat.

Definition digit_val (c : ascii) : Z := Z.of_nat (nat_of_ascii c) - 48.

Fixpoint lstrip (s : string) : string :=
  match s with
  | "" => ""
  | String c s' => if is_space c then lstrip s' else s
  end.

Fixpoint rstrip (s : string) : string :=
  match s with
  | "" => ""
  | String c s' =>
      match rstrip s' with
      | "" => if is_space c then "" else String c ""
      | r => String c r
      end
  end.

Fixpoint int_digits (acc : Z) (after_digit : bool) (s : string) : option Z :=
  match s with
  | "" => if after_digit then Some acc else None
  | String c s' =>
      if is_digit c then int_digits (10 * acc + digit_val c) true s'
      else if Ascii.eqb c "_" && after_digit then int_digits acc false s'
      else None
  end.

Definition int (s : string) : option Z :=
  match rstrip (lstrip s) with
  | String c d =>
      if Ascii.eqb c "-" then Z.opp <$> int_digits 0 false d
      else if Ascii.eqb c "+" then int_digits 0 false d
      else int_digits 0 false (String c d)
  | "" => None
  end.

(** [int(s, 16)] restricted to the strings it is applied to here, one or
    more hexadecimal digits matched by a regular expression beforehand. *)
Definition is_hex (c : ascii) : bool :=
  let n := nat_of_ascii c in
  (((48 <=? n) && (n <=? 57)) || ((65 <=? n) && (n <=? 70))
   || ((97 <=? n) && (n <=? 102)))%nat.

Definition hex_val (c : ascii) : Z :=
  let n := Z.of_nat (nat_of_ascii c) in
  if n <=? 57 then n - 48 else if n <=? 70 then n - 55 else n - 87.

Fixpoint int16_from (acc : Z) (s : string) : Z :=
  match s with
  | "" => acc
  | String c s' => int16_from (16 * acc + hex_val c) s'
  end.

Definition int16 (s : string) : Z := int16_from 0 s.

(** [format(z, '02x')]: lower-case hexadecimal, padded with zeros to two
    characters, the sign of a negative number counting as one of them. *)
Definition hex_digits (z : Z) : string :=
  match z with
  | Z0 => "0"
  | Zpos p | Zneg p => HexString.Raw.of_pos p ""
  end.

Definition format_02x (z : Z) : string :=
  if z <? 0 then "-" +:+ hex_digits z
  else
    let d := hex_digits z in
    if (String.length d <? 2)%nat then "0" +:+ d else d.

(** [s.split()]: the maximal runs of characters that are not white space. *)
Fixpoint split_ws (s : string) : list string :=
  match s with
  | "" => []
  | String c s' =>
      if is_space c then split_ws s'
      else
        match s' with
        | "" => [String c ""]
        | String c' _ =>
            if is_space c' then String c "" :: split_ws s'
            else match split_ws s' with
                 | p :: ps => String c p :: ps
                 | [] => [String c ""]
                 end
        end
  end.

End Py.

(** ** The part of the netaddr package that [eui64_to_mac] calls

    netaddr is a dependency of the scripts, not part of the repository; the
    definitions below follow its [strategy] and [eui] modules. An [EUI] holds
    the version of its identifier and its integer value; the constructors and
    [__setitem__] keep the value within [0, max_int], which is why the range
    check at the head of [int_to_words] is left out. *)

Module netaddr.

Inductive version : Set := EUI48 | EUI64.

Definition num_words (v : version) : nat :=
  match v with EUI48 => 6%nat | EUI64 => 8%nat end.

Definition max_int (v : version) : Z :=
  match v with EUI48 => 2 ^ 48 - 1 | EUI64 => 2 ^ 64 - 1 end.

Record EUI : Set := mkEUI { module : version; value : Z }.

(** [int_to_words]: the words of [int_val], most significant first. The loop
    appends the low word and shifts; the tuple is reversed at the end, so the
    accumulator grows at its head. *)
Fixpoint int_to_words_go (word_size : Z) (n : nat) (int_val : Z)
    (words : list Z) : list Z :=
  match n with
  | O => words
  | S k =>
      int_to_words_go word_size k (Z.shiftr int_val word_size)
        (Z.land int_val (2 ^ word_size - 1) :: words)
  end.

Definition int_to_words (int_val word_size : Z) (num_words : nat) : list Z :=
  int_to_words_go word_size num_words int_val [].

(** [words_to_int]: [int_val |= num << word_size * i] over
    [enumerate(reversed(words))]. *)
Definition words_to_int (words : list Z) (word_size : Z) : Z :=
  foldl (λ int_val '(i, num), Z.lor int_val (Z.shiftl num (word_size * Z.of_nat i)))
    0 (imap pair (rev words)).

(** [word_fmt % w] with [word_fmt = '%.2X'], for a word of eight bits. *)
Definition hex_upper (d : Z) : ascii :=
  if d <? 10 then ascii_of_nat (Z.to_nat (48 + d))
  else ascii_of_nat (Z.to_nat (55 + d)).

Definition word_fmt (w : Z) : string :=
  String (hex_upper (w / 16)) (String (hex_upper (w mod 16)) "").

(** [str(eui)]: both default dialects ([mac_eui48] and [eui64_base]) print
    words of eight bits in upper-case hexadecimal, separated by ['-']. *)
Definition EUI_str (e : EUI) : string :=
  Py.join "-" (word_fmt <$> int_to_words (value e) 8 (num_words (module e))).

(** [eui[idx]] and [eui[idx] = word] for an integer index: a negative index
    is accepted when reading only. *)
Definition EUI_getitem (e : EUI) (idx : Z) : result Z :=
  let n := Z.of_nat (num_words (module e)) in
  if (- n <=? idx) && (idx <=? n - 1) then
    match int_to_words (value e) 8 (num_words (module e))
            !! Z.to_nat (if idx <? 0 then n + idx else idx) with
    | Some w => Ok w
    | None => Raise IndexError
    end
  else Raise IndexError.

Definition EUI_setitem (e : EUI) (idx : Z) (word : Z) : result EUI :=
  let n := Z.of_nat (num_words (module e)) in
  if negb ((0 <=? idx) && (idx <=? n - 1)) then Raise IndexError
  else if negb ((0 <=? word) && (word <=? 255)) then Raise IndexError
  else
    let words := int_to_words (value e) 8 (num_words (module e)) in
    Ok (mkEUI (module e) (words_to_int (<[Z.to_nat idx := word]> words) 8)).

(** The address formats: each regular expression is a number of groups of
    [lo] to [hi] hexadecimal digits, in either case, joined by one separator
    character, or a single group with no separator. A string matches when
    splitting at the separator gives exactly these groups. *)
Record format : Set := mkFormat {
  fsep : option ascii; groups : nat; lo : nat; hi : nat }.

Definition hex_group (lo hi : nat) (g : string) : bool :=
  (lo <=? String.length g)%nat && (String.length g <=? hi)%nat
  && forallb Py.is_hex (list_ascii_of_string g).

Definition findall (re : format) (addr : string) : option (list string) :=
  match fsep re with
  | Some sep =>
      let gs := Py.split sep addr in
      if (length gs =? groups re)%nat && forallb (hex_group (lo re) (hi re)) gs
      then Some gs else None
  | None => if hex_group (lo re) (hi re) addr then Some [addr] else None
  end.

Fixpoint first_match (res : list format) (addr : string) : option (list string) :=
  match res with
  | [] => None
  | re :: res' =>
      match findall re addr with
      | Some words => Some words
      | None => first_match res' addr
      end
  end.

Definition RE_MAC_FORMATS : list format :=
  [ mkFormat (Some ":"%char) 6 1 2; mkFormat (Some "-"%char) 6 1 2;
    mkFormat (Some ":"%char) 3 1 4; mkFormat (Some "-"%char) 3 1 4;
    mkFormat (Some "."%char) 3 1 4;
    mkFormat (Some "-"%char) 2 5 6; mkFormat (Some ":"%char) 2 5 6;
    mkFormat None 1 12 12; mkFormat None 1 11 11 ].

Definition RE_EUI64_FORMATS : list format :=
  [ mkFormat (Some ":"%char) 8 1 2; mkFormat (Some "-"%char) 8 1 2;
    mkFormat (Some ":"%char) 4 1 4; mkFormat (Some "-"%char) 4 1 4;
    mkFormat (Some "."%char) 4 1 4;
    mkFormat None 1 16 16 ].

(** [str_to_int] of the two strategies. The source prints every word in
    hexadecimal at a fixed width, concatenates and reads the result in base
    16: that is [words_to_int] at that width. *)
Definition eui48_str_to_int (addr : string) : result Z :=
  match first_match RE_MAC_FORMATS addr with
  | None => Raise AddrFormatError
  | Some words =>
      match length words with
      | 6%nat => Ok (words_to_int (Py.int16 <$> words) 8)
      | 3%nat => Ok (words_to_int (Py.int16 <$> words) 16)
      | 2%nat => Ok (words_to_int (Py.int16 <$> words) 24)
      | 1%nat => Ok (words_to_int (Py.int16 <$> words) 48)
      | _ => Raise AddrFormatError
      end
  end.

Definition eui64_str_to_int (addr : string) : result Z :=
  match first_match RE_EUI64_FORMATS addr with
  | None => Raise AddrFormatError
  | Some words =>
      match length words with
      | 8%nat => Ok (words_to_int (Py.int16 <$> words) 8)
      | 4%nat => Ok (words_to_int (Py.int16 <$> words) 16)
      | 1%nat => Ok (words_to_int (Py.int16 <$> words) 64)
      | _ => Raise AddrFormatError
      end
  end.

Definition str_to_int (v : version) : string → result Z :=
  match v with EUI48 => eui48_str_to_int | EUI64 => eui64_str_to_int end.

(** [EUI(value, version=v)] for an integer [value]. *)
Definition EUI_of_int (int_val : Z) (v : version) : result EUI :=
  if (0 <=? int_val) && (int_val <=? max_int v) then Ok (mkEUI v int_val)
  else Raise AddrFormatError.

(** [EUI(value)] for a string, the version being detected: each strategy is
    tried in turn, first on the address formats, then on [int(value)]. *)
Fixpoint EUI_detect (modules : list version) (addr : string) : result EUI :=
  match modules with
  | [] => Raise AddrFormatError
  | v :: modules' =>
      match str_to_int v addr with
      | Ok int_val => Ok (mkEUI v int_val)
      | Raise _ =>
          match Py.int addr with
          | Some i =>
              if (0 <=? i) && (i <=? max_int v) then Ok (mkEUI v i)
              else EUI_detect modules' addr
          | None => EUI_detect modules' addr
          end
      end
  end.

Definition EUI_of_str (addr : string) : result EUI :=
  EUI_detect [EUI48; EUI64] addr.

(** [int(IPAddress(addr))] for the textual form of an IPv6 address: up to
    eight groups of one to four hexadecimal digits separated by [':'], one
    run of zero groups possibly written ['::']. [None] stands for
    [AddrFormatError]. Dotted IPv4 text, which netaddr also reads, is not
    part of this model. *)
Definition trim_ends (gs : list string) : option (list string) :=
  gs1 ← match gs with
        | "" :: "" :: r => Some ("" :: r)
        | "" :: _ :: _ => None
        | _ => Some gs
        end;
  match rev gs1 with
  | "" :: "" :: r => Some (rev ("" :: r))
  | "" :: _ :: _ => None
  | _ => Some gs1
  end.

Definition expand (gs : list string) : option (list string) :=
  let holes := length (filter (λ g, g = "") gs) in
  match holes with
  | 0%nat => if (length gs =? 8)%nat then Some gs else None
  | 1%nat =>
      if (length gs <=? 8)%nat
      then Some (gs ≫= λ g, if decide (g = "") then replicate (9 - length gs) "0" else [g])
      else None
  | _ => None
  end.

Definition IPAddress (addr : string) : option Z :=
  gs ← trim_ends (Py.split ":" addr);
  gs ← expand gs;
  if forallb (hex_group 1 4) gs then Some (words_to_int (Py.int16 <$> gs) 16)
  else None.

End netaddr.

(** ** NMtcpdump.py *)

Module NMtcpdump.
Import netaddr.

Definition eui64_to_mac (ipv6_addr : string) : result string :=
  match IPAddress ipv6_addr with
  | None => Raise AddrFormatError
  | Some ip =>
      let iid := Z.land ip 0xFFFFFFFFFFFFFFFF in
      eui64 ← EUI_of_int iid EUI64;
      w0 ← EUI_getitem eui64 0;
      eui64 ← EUI_setitem eui64 0 (Z.lxor w0 0x02);
      mac ← EUI_of_str (Py.replace "FF-FE-" "" (EUI_str eui64));
      Ok (EUI_str mac)
  end.

(** The loop [for name, addr in zip(names, eui64_addrs)] of
    [extract_mac_addresses], filling the two dictionaries; an exception of
    [eui64_to_mac] leaves the function. *)
Fixpoint assign (pairs : list (string * string))
    (mac_addresses ipv6_addresses : gmap string string)
    : result (gmap string string * gmap string string) :=
  match pairs with
  | [] => Ok (mac_addresses, ipv6_addresses)
  | (name, addr) :: pairs' =>
      mac ← eui64_to_mac addr;
      assign pairs' (<[name := mac]> mac_addresses) (<[name := addr]> ipv6_addresses)
  end.

(** The body of [extract_mac_addresses] after the capture file is read, with
    its two constants, the prefix and the list of names, as arguments.
    [src_addrs] lists the elements of the set of source addresses in the
    order in which iterating over the set yields them. [sorted] is a merge
    sort, on the order [<=] of [str]. *)
Definition select_and_name (prefix : string) (names : list string)
    (src_addrs : list string)
    : result (gmap string string * gmap string string) :=
  let eui64_addrs :=
    merge_sort String.le (filter (λ addr, Py.contains prefix addr = true) src_addrs) in
  assign (zip names eui64_addrs) ∅ ∅.

Definition names : list string := ["R2-F0/0"; "R3-F0/0"].

Definition extract_mac_addresses (src_addrs : list string)
    : result (gmap string string * gmap string string) :=
  select_and_name "2001:db8:1:" names src_addrs.

(** The loop over the packets of the capture at the head of
    [extract_mac_addresses]. A packet is given by the source address of its
    IPv6 layer, [None] when it has no such layer. *)
Definition src_addrs_of (pcap : list (option string)) : gset string :=
  foldl (λ src_addrs pkt,
           match pkt with
           | Some src => {[src]} ∪ src_addrs
           | None => src_addrs
           end) ∅ pcap.

End NMtcpdump.

(** ** NMsnmp.py *)

Module NMsnmp.

(** A variable binding of a walk: [var.oid] and [var.value], both [str]. *)
Record SNMPVariable : Set := mkVar { oid : string; value : string }.

Definition INTERFACE_STATUS : gmap string string :=
  list_to_map
    [ ("1", "up"); ("2", "down"); ("3", "testing"); ("4", "unknown");
      ("5", "dormant"); ("6", "notPresent"); ("7", "lowerLayerDown") ].

(** *** [fetch_ipv4_addresses]

    The body of the loop for one binding: [Ok (Some a)] when [a] is appended
    to the list, [Ok None] when nothing is. *)
Definition ipv4_row (var_oid : string) : result (option string) :=
  let oid_parts := Py.split "." var_oid in
  if (4 <=? length oid_parts)%nat then
    let ip_addr := Py.join "." (Py.last_n 4 oid_parts) in
    Ok (Some (ip_addr +:+ "/24"))
  else Ok None.

(** The loop; the [except] clause of the function returns the addresses
    gathered so far. *)
Fixpoint ipv4_rows (results : list SNMPVariable) (ipv4_addresses : list string)
    : list string :=
  match results with
  | [] => ipv4_addresses
  | var :: results' =>
      match ipv4_row (oid var) with
      | Ok (Some a) => ipv4_rows results' (ipv4_addresses ++ [a])
      | Ok None => ipv4_rows results' ipv4_addresses
      | Raise _ => ipv4_addresses
      end
  end.

(** [results] is what [snmp_walk] returned: [None] after a failed walk. *)
Definition fetch_ipv4_addresses (results : option (list SNMPVariable)) : list string :=
  match results with
  | Some ((_ :: _) as vars) => ipv4_rows vars []
  | _ => []
  end.

(** *** [fetch_ipv6_addresses]

    The body of the inner [try] for one binding. *)
Definition base_parts : nat := 9.

Definition hex_of_index (idx : string) : result string :=
  match Py.int idx with
  | Some z => Ok (Py.format_02x z)
  | None => Raise ValueError
  end.

Definition ipv6_row (var_oid : string) : result (option string) :=
  let oid_str :=
    if Py.startswith "iso." var_oid then Py.str_drop 4 var_oid else var_oid in
  let parts := Py.split "." oid_str in
  if (base_parts + 18 <=? length parts)%nat then
    let addr_indices := Py.slice (base_parts + 2) (base_parts + 18) parts in
    if (length addr_indices =? 16)%nat then
      addr_bytes ← mapM hex_of_index addr_indices;
      let ipv6_addr :=
        Py.join ":"
          ((λ i, Py.join "" (Py.slice i (i + 2) addr_bytes))
             <$> [0; 2; 4; 6; 8; 10; 12; 14]%nat) in
      Ok (Some (ipv6_addr +:+ "/64"))
    else Ok None
  else Ok None.

(** The loop: the inner [except] clause goes on to the next binding. *)
Fixpoint ipv6_rows (results : list SNMPVariable) (ipv6_addresses : list string)
    : list string :=
  match results with
  | [] => ipv6_addresses
  | var :: results' =>
      match ipv6_row (oid var) with
      | Ok (Some a) => ipv6_rows results' (ipv6_addresses ++ [a])
      | Ok None | Raise _ => ipv6_rows results' ipv6_addresses
      end
  end.

Definition fetch_ipv6_addresses (results : option (list SNMPVariable)) : list string :=
  match results with
  | Some ((_ :: _) as vars) => ipv6_rows vars []
  | _ => []
  end.

(** *** [fetch_interface_status] *)

(** [var.oid.split('.')[-1]] *)
Definition if_index_of (var : SNMPVariable) : string :=
  List.last (Py.split "." (oid var)) "".

Definition name_rows (results : list SNMPVariable) (interface_names : gmap string string)
    : gmap string string :=
  foldl (λ interface_names var, <[if_index_of var := value var]> interface_names)
    interface_names results.

(** The name and the label computed for one binding of the status walk. *)
Definition decode_interface_status (status_code : string)
    (interface_names : gmap string string) (if_index : string) : string * string :=
  let status := default "unknown" (INTERFACE_STATUS !! status_code) in
  let if_name := default ("if" +:+ if_index) (interface_names !! if_index) in
  (if_name, status).

Definition status_rows (interface_names : gmap string string)
    (results : list SNMPVariable) (interface_data : gmap string string)
    : gmap string string :=
  foldl (λ interface_data var,
           let '(if_name, status) :=
             decode_interface_status (value var) interface_names (if_index_of var) in
           if decide (Py.lower if_name ≠ "null0")
           then <[if_name := status]> interface_data
           else interface_data)
    interface_data results.

Definition fetch_interface_status (name_results status_results : option (list SNMPVariable))
    : gmap string string :=
  let interface_names := name_rows (default [] name_results) ∅ in
  status_rows interface_names (default [] status_results) ∅.

(** *** [fetch_cpu_utilization]

    [result] is what [snmp_get] returned. [int] raising [ValueError] is
    caught by the [except] clause and the function returns [None]. *)
Definition fetch_cpu_utilization (result : option SNMPVariable) : option Z :=
  match result with
  | Some var => Py.int (value var)
  | None => None
  end.

(** *** [collect_network_data] *)

Definition ROUTERS : list (string * (string * string)) :=
  [ ("R1", ("198.51.1.1", "public")); ("R2", ("198.51.1.3", "public"));
    ("R3", ("198.51.1.2", "public")); ("R4", ("198.51.100.1", "public"));
    ("R5", ("198.51.101.5", "public")) ].

Definition OID_IPV4_ADDRESS : string := "1.3.6.1.2.1.4.20.1.1".
Definition OID_IPV6_ADDRESS : string := "1.3.6.1.2.1.4.34.1.3".
Definition OID_INTERFACE_STATUS : string := "1.3.6.1.2.1.2.2.1.8".
Definition OID_INTERFACE_NAME : string := "1.3.6.1.2.1.2.2.1.2".

(** The dictionary [{'v4': ..., 'v6': ...}] of a router. *)
Record router_addresses : Type := mkAddresses { v4 : list string; v6 : list string }.

(** [snmp_walk host community oid] stands for the answer of the network. *)
Definition collect_network_data
    (snmp_walk : string → string → string → option (list SNMPVariable))
    : gmap string router_addresses * gmap string (gmap string string) :=
  foldl (λ '(addresses_data, interface_data) '(router_name, (host, community)),
           let ipv4_addresses :=
             fetch_ipv4_addresses (snmp_walk host community OID_IPV4_ADDRESS) in
           let ipv6_addresses :=
             fetch_ipv6_addresses (snmp_walk host community OID_IPV6_ADDRESS) in
           let interfaces :=
             fetch_interface_status
               (snmp_walk host community OID_INTERFACE_NAME)
               (snmp_walk host community OID_INTERFACE_STATUS) in
           (<[router_name := mkAddresses ipv4_addresses ipv6_addresses]> addresses_data,
            <[router_name := interfaces]> interface_data))
    (∅, ∅) ROUTERS.

End NMsnmp.

(** ** NMdhcpserver.py *)

Module NMdhcpserver.

(** *** [get_r5_ipv6_from_r4], the reading of the output of the device *)

(** The character class [[0-9a-f:]]. *)
Definition is_addr_char (c : ascii) : bool :=
  let n := nat_of_ascii c in
  (((48 <=? n) && (n <=? 58)) || ((97 <=? n) && (n <=? 102)))%nat.

(** The longest prefix of [s] made of characters of a class. *)
Fixpoint take_while (P : ascii → bool) (s : string) : string :=
  match s with
  | "" => ""
  | String c s' => if P c then String c (take_while P s') else ""
  end.

(** [re.search(r'(2001:db8:1:[0-9a-f:]+)', line)] and [match.group(1)]: the
    leftmost place where the literal is followed by at least one character
    of the class, with all the characters of the class that follow. *)
Fixpoint search_global (line : string) : option string :=
  match line with
  | "" => None
  | String _ line' =>
      if Py.startswith "2001:db8:1:" line then
        match take_while is_addr_char (Py.str_drop 11 line) with
        | "" => search_global line'
        | tail => Some ("2001:db8:1:" +:+ tail)
        end
      else search_global line'
  end.

Fixpoint neighbor_lines (lines : list string) : result string :=
  match lines with
  | [] => Raise ValueError
  | line :: lines' =>
      let line := Py.lower line in
      if Py.contains "2001:db8:1:" line then
        match search_global line with
        | Some group => Ok group
        | None => neighbor_lines lines'
        end
      else neighbor_lines lines'
  end.

(** [output] is what [send_command] returned. *)
Definition r5_ipv6_of_output (output : string) : result string :=
  neighbor_lines (Py.split "010"%char output).

(** *** [configure_dhcp_on_r5], the list of commands

    [None] stands for the [KeyError] of [mac_addresses[...]]. *)
Definition dhcp_commands (mac_addresses : gmap string string) : option (list string) :=
  r2 ← mac_addresses !! "R2-F0/0";
  r3 ← mac_addresses !! "R3-F0/0";
  Some [ "service dhcp";
         "ip dhcp excluded-address 198.51.101.5";
         "ip dhcp excluded-address 198.51.101.254";
         "ip dhcp pool R2_POOL";
         "host 198.51.101.2 255.255.255.0";
         "hardware-address " +:+ r2 +:+ " ieee802";
         "default-router 198.51.101.5";
         "exit";
         "ip dhcp pool R3_POOL";
         "host 198.51.101.4 255.255.255.0";
         "hardware-address " +:+ r3 +:+ " ieee802";
         "default-router 198.51.101.5";
         "exit";
         "ip dhcp pool R4_POOL";
         "network 198.51.101.0 255.255.255.0";
         "default-router 198.51.101.5";
         "excluded-address 198.51.101.1 198.51.101.5";
         "lease 1" ].

(** *** [get_dhcp_bindings], the reading of the output of the device *)

(** [\d+] at the head of [s]: [skip_digits] drops the digits at the head,
    [digits_then] asks for one digit at least and gives what follows the
    digits, [None] when [s] does not start with a digit. *)
Fixpoint skip_digits (s : string) : string :=
  match s with
  | String c s' => if Py.is_digit c then skip_digits s' else s
  | "" => ""
  end.

Definition digits_then (s : string) : option string :=
  match s with
  | String c s' => if Py.is_digit c then Some (skip_digits s') else None
  | "" => None
  end.

Definition dot_then (s : string) : option string :=
  match s with
  | String c s' => if Ascii.eqb c "." then Some s' else None
  | "" => None
  end.

(** [re.match(r'\d+\.\d+\.\d+\.\d+', s)]: the pattern is looked for at
    the head of [s] only. *)
Definition dotted_quad_rest (s : string) : option string :=
  s ← digits_then s; s ← dot_then s;
  s ← digits_then s; s ← dot_then s;
  s ← digits_then s; s ← dot_then s;
  digits_then s.

Definition match_dotted_quad (s : string) : bool :=
  match dotted_quad_rest s with
  | Some _ => true
  | None => false
  end.

Fixpoint binding_lines (lines : list string) (client_ips : list string) : list string :=
  match lines with
  | [] => client_ips
  | line :: lines' =>
      match Py.split_ws line with
      | ip :: _ :: _ =>
          if match_dotted_quad ip then binding_lines lines' (client_ips ++ [ip])
          else binding_lines lines' client_ips
      | _ => binding_lines lines' client_ips
      end
  end.

Definition client_ips_of_output (output : string) : list string :=
  binding_lines (Py.split "010"%char output) [].

End NMdhcpserver.

(** * Definitions used in the statements

    Predicates on strings and octets, the words of the specification
    (the colon-hex grouping, the modified EUI-64 rule) and names for parts
    of the functions above. *)

(** Every character of [s] satisfies [P]. *)
Fixpoint all_chars (P : ascii → bool) (s : string) : bool :=
  match s with
  | "" => true
  | String c s' => P c && all_chars P s'
  end.

(** [s] does not contain the character [sep]. *)
Definition free_of (sep : ascii) (s : string) : bool :=
  all_chars (λ c, negb (Ascii.eqb c sep)) s.

(** The dotted form of an object identifier given by its components. *)
Definition dotted (components : list N) : string :=
  Py.join "." (pretty <$> components).

(** The components of an identifier once the root label is removed. *)
Definition oid_parts (var_oid : string) : list string :=
  Py.split "."
    (if Py.startswith "iso." var_oid then Py.str_drop 4 var_oid else var_oid).

(** A hexadecimal digit in lower case. *)
Definition hex_lower (d : N) : ascii :=
  (if d <? 10 then ascii_of_N (48 + d) else ascii_of_N (87 + d))%N.

(** An octet in two lower-case hexadecimal digits. *)
Definition hex2 (a : N) : string :=
  String (hex_lower (a / 16)) (String (hex_lower (a mod 16)) "").

(** The elements of a list taken two by two. *)
Fixpoint pairs_of {A} (l : list A) : list (A * A) :=
  match l with
  | a :: b :: l' => (a, b) :: pairs_of l'
  | _ => []
  end.

(** The colon-hex grouping of a sequence of octets, as the specification
    words it: the octets are taken two by two, each written with two
    hexadecimal digits, and the groups are joined by [':']. *)
Definition colon_hex (octets : list N) : string :=
  Py.join ":" ((λ '(a, b), hex2 a +:+ hex2 b) <$> pairs_of octets).

(** The status codes of the table [INTERFACE_STATUS]. *)
Definition status_keys : list string := ["1"; "2"; "3"; "4"; "5"; "6"; "7"].

(** The values of a word of eight bits. *)
Definition octet (w : Z) : Prop := 0 ≤ w < 256.

(** The value of a sequence of octets given least significant first. *)
Fixpoint le_val (l : list Z) : Z :=
  match l with
  | [] => 0
  | x :: l' => Z.lor x (Z.shiftl (le_val l') 8)
  end.

(** The default text of an identifier whose words are [ws]. *)
Definition render (ws : list Z) : string := Py.join "-" (netaddr.word_fmt <$> ws).

(** What the table of the 256 octets says of the text of a word. *)
Definition word_facts (w : Z) : bool :=
  free_of "-" (netaddr.word_fmt w) && free_of ":" (netaddr.word_fmt w)
  && free_of "." (netaddr.word_fmt w)
  && netaddr.hex_group 1 2 (netaddr.word_fmt w)
  && (Py.int16 (netaddr.word_fmt w) =? w)
  && Bool.eqb (Py.startswith "FF" (netaddr.word_fmt w)) (w =? 255)
  && Bool.eqb (Py.startswith "FE" (netaddr.word_fmt w)) (w =? 254)
  && match netaddr.word_fmt w with
     | String h (String l "") =>
         negb (Py.is_space h) && negb (Ascii.eqb h "-") && negb (Ascii.eqb h "+")
         && negb (Ascii.eqb l "_")
     | _ => false
     end.

(** The octets of the interface identifier of an address, most significant
    first, as [EUI(iid, version=64)] holds them. *)
Definition iid_words (ip : Z) : list Z :=
  netaddr.int_to_words (Z.land ip 0xFFFFFFFFFFFFFFFF) 8 8.

(** The interface identifier that the modified EUI-64 rule builds from a
    hardware address, as the specification words it: bit [0x02] of the first
    octet is flipped and the octets [FF FE] are put in the middle. *)
Definition modified_eui64 (mac : list Z) : Z :=
  match mac with
  | [m0; m1; m2; m3; m4; m5] =>
      netaddr.words_to_int [Z.lxor m0 0x02; m1; m2; 0xFF; 0xFE; m3; m4; m5] 8
  | _ => 0
  end.

(** The words of the identifier after [eui64[0] = eui64[0] ^ 0x02]. *)
Definition flipped_words (ip : Z) : list Z :=
  match iid_words ip with
  | w0 :: ws => Z.lxor w0 0x02 :: ws
  | [] => []
  end.

(** The addresses that pass the filter, in the order [sorted] gives them. *)
Definition selected (prefix : string) (src_addrs : list string) : list string :=
  merge_sort String.le (filter (λ addr, Py.contains prefix addr = true) src_addrs).

(** A line of the table of bindings: an address, a space and the other
    fields. *)
Definition binding_text (row : (N * N * N * N) * string) : string :=
  let '((a, b, c, d), fields) := row in
  dotted [a; b; c; d] +:+ String " " fields.

(** A line that the loop of [get_dhcp_bindings] passes over: fewer than two
    fields, or a first field that does not begin with a dotted quad. *)
Definition not_binding (line : string) : Prop :=
  match Py.split_ws line with
  | ip :: _ :: _ => NMdhcpserver.match_dotted_quad ip = false
  | _ => True
  end.

(** The labels of the table [INTERFACE_STATUS]. *)
Definition status_labels : list string :=
  ["up"; "down"; "testing"; "unknown"; "dormant"; "notPresent"; "lowerLayerDown"].

(** A binding of the IPv4 address table: the components before the
    address, the four octets, and the value. *)
Definition ipv4_binding (row : list N * (N * N * N * N) * string) : NMsnmp.SNMPVariable :=
  let '(front, (a, b, c, d), val) := row in
  NMsnmp.mkVar (dotted (front ++ [a; b; c; d])%list) val.

(** A binding of the IPv6 address table: the nine components of the base,
    the two components before the address, the sixteen octets, the value. *)
Definition ipv6_binding (row : list N * (N * N) * list N * string) : NMsnmp.SNMPVariable :=
  let '(base, (ifIndex, addrType), octets, val) := row in
  NMsnmp.mkVar (dotted (base ++ [ifIndex; addrType] ++ octets)%list) val.

Definition ipv6_binding_ok (row : list N * (N * N) * list N * string) : Prop :=
  let '(base, _, octets, _) := row in
  length base = 9%nat ∧ length octets = 16%nat ∧ Forall (λ a, (a < 256)%N) octets.

(** * Properties *)

(** ** Strings: splitting, joining, decimal numerals *)

Section strings.

Lemma app_cons (c : ascii) (p q : string) : String c p +:+ q = String c (p +:+ q).
Proof. reflexivity. Qed.

Lemma app_nil_l (q : string) : "" +:+ q = q.
Proof. reflexivity. Qed.

Lemma all_chars_impl (P Q : ascii → bool) s :
  (∀ c, P c = true → Q c = true) → all_chars P s = true → all_chars Q s = true.
Proof.
  intros HPQ. induction s as [|c s IH]; simpl; [done|].
  intros [Hc Hs]%andb_true_iff. by rewrite (HPQ _ Hc), IH.
Qed.

Lemma split_free sep p : free_of sep p = true → Py.split sep p = [p].
Proof.
  induction p as [|c p IH]; simpl; [done|].
  intros [Hc Hp]%andb_true_iff. apply negb_true_iff in Hc.
  by rewrite Hc, IH.
Qed.

Lemma split_app sep p rest :
  free_of sep p = true →
  Py.split sep (p +:+ String sep rest) = p :: Py.split sep rest.
Proof.
  induction p as [|c p IH]; simpl.
  - intros _. by rewrite Ascii.eqb_refl.
  - intros [Hc Hp]%andb_true_iff. apply negb_true_iff in Hc.
    by rewrite Hc, IH.
Qed.

Lemma join_cons sep x y l :
  Py.join sep (x :: y :: l) = x +:+ sep +:+ Py.join sep (y :: l).
Proof. reflexivity. Qed.

Lemma join_one sep x : Py.join sep [x] = x.
Proof. reflexivity. Qed.

(** [sep.join(l).split(sep)] gives [l] back when no element contains the
    separator and [l] is not empty. *)
Lemma split_join sep l :
  l ≠ [] → Forall (λ p, free_of sep p = true) l →
  Py.split sep (Py.join (String sep "") l) = l.
Proof.
  intros Hne Hl. induction Hl as [|x l Hx Hl IH]; [done|].
  destruct l as [|y l].
  - by apply split_free.
  - rewrite join_cons, app_cons, app_nil_l, split_app by done.
    by rewrite IH.
Qed.

Lemma pretty_N_go_digits (x : N) s :
  all_chars Py.is_digit s = true → all_chars Py.is_digit (pretty_N_go x s) = true.
Proof.
  revert s. induction (N.lt_wf_0 x) as [x _ IH]; intros s Hs.
  destruct (decide (x = 0)%N) as [->|Hx]; [by rewrite pretty_N_go_0|].
  rewrite pretty_N_go_step by lia. apply IH; [apply N.div_lt; lia|].
  simpl. rewrite Hs, andb_true_r.
  unfold pretty_N_char. by repeat case_match.
Qed.

Lemma pretty_N_digits (x : N) : all_chars Py.is_digit (pretty x) = true.
Proof.
  unfold pretty, pretty_N. case_decide; [done|]. by apply pretty_N_go_digits.
Qed.

Lemma digits_free sep s :
  Py.is_digit sep = false → all_chars Py.is_digit s = true → free_of sep s = true.
Proof.
  intros Hsep. apply all_chars_impl. intros c Hc. apply negb_true_iff.
  destruct (Ascii.eqb_spec c sep) as [->|]; [congruence|done].
Qed.

Lemma pretty_N_free (l : list N) :
  Forall (λ p, free_of "." p = true) (pretty <$> l).
Proof.
  apply Forall_fmap, Forall_true. intros x. simpl.
  apply digits_free; [done|apply pretty_N_digits].
Qed.

Lemma split_dotted (components : list N) :
  components ≠ [] → Py.split "." (dotted components) = pretty <$> components.
Proof.
  intros Hne. apply split_join; [by destruct components|apply pretty_N_free].
Qed.

End strings.

(** ** The IPv4 rows *)

Section ipv4.
Import NMsnmp.

Lemma last_n_app {A} (l1 l2 : list A) n : length l2 = n → Py.last_n n (l1 ++ l2) = l2.
Proof.
  intros <-. unfold Py.last_n. rewrite length_app.
  replace (length l1 + length l2 - length l2)%nat with (length l1) by lia.
  by rewrite drop_app_length.
Qed.

(** C7. For every object identifier with at least four components, that is
    some components followed by [a], [b], [c] and [d], the IPv4 row decoder
    returns the decimal forms of these last four joined by ['.'], followed by
    ["/24"]; an identifier ending in 198.51.1.1 gives ["198.51.1.1/24"]. *)
Theorem ipv4_row_last_four :
  (∀ (front : list N) (a b c d : N),
     ipv4_row (dotted (front ++ [a; b; c; d]))
     = Ok (Some ((pretty a +:+ "." +:+ pretty b +:+ "." +:+ pretty c +:+ "."
                  +:+ pretty d) +:+ "/24")))
  ∧ ipv4_row "1.3.6.1.2.1.4.20.1.1.198.51.1.1" = Ok (Some "198.51.1.1/24").
Proof.
  split; [|reflexivity].
  intros front a b c d. unfold ipv4_row.
  rewrite split_dotted by (by destruct front).
  rewrite fmap_app, length_app, length_fmap. simpl length.
  replace (4 <=? length front + 4)%nat with true by (symmetry; apply Nat.leb_le; lia).
  rewrite last_n_app by done. reflexivity.
Qed.

(** C3, the claim as stated fails: the identifier 1.2.3 has three
    components and the row decoder raises nothing, the row is passed over. *)
Lemma ipv4_row_short_no_error :
  (length (Py.split "." "1.2.3") < 4)%nat
  ∧ ipv4_row "1.2.3" = Ok None
  ∧ ¬ ∃ e, ipv4_row "1.2.3" = Raise e.
Proof.
  split; [simpl; lia|]. split; [reflexivity|]. intros [e He]. discriminate He.
Qed.

(** C3, amended. An identifier with fewer than four components gives no
    result and raises no error; an identifier with at least four components
    gives a result. *)
Theorem ipv4_row_skip_or_result (var_oid : string) :
  ((length (Py.split "." var_oid) < 4)%nat → ipv4_row var_oid = Ok None)
  ∧ ((4 ≤ length (Py.split "." var_oid))%nat → ∃ r, ipv4_row var_oid = Ok (Some r)).
Proof.
  unfold ipv4_row. split; intros Hlen.
  - by rewrite (proj2 (Nat.leb_gt _ _) Hlen).
  - rewrite (proj2 (Nat.leb_le _ _) Hlen). eauto.
Qed.

Lemma ipv4_row_skip_or_result_witness :
  ((length (Py.split "." "1.2.3") < 4)%nat ∧ ipv4_row "1.2.3" = Ok None)
  ∧ ((4 ≤ length (Py.split "." "10.198.51.1.1"))%nat
     ∧ ∃ r, ipv4_row "10.198.51.1.1" = Ok (Some r)).
Proof.
  split.
  - assert (Hlen : (length (Py.split "." "1.2.3") < 4)%nat) by (simpl; lia).
    split; [exact Hlen|]. exact (proj1 (ipv4_row_skip_or_result "1.2.3") Hlen).
  - assert (Hlen : (4 ≤ length (Py.split "." "10.198.51.1.1"))%nat) by (simpl; lia).
    split; [exact Hlen|]. exact (proj2 (ipv4_row_skip_or_result "10.198.51.1.1") Hlen).
Defined.

End ipv4.

(** ** The IPv6 rows *)

Section ipv6.
Import NMsnmp.

Lemma octet_index_table :
  forallb (λ n, match hex_of_index (pretty (N.of_nat n)) with
                | Ok s => String.eqb s (hex2 (N.of_nat n))
                | Raise _ => false
                end) (seq 0 256) = true.
Proof. vm_compute. reflexivity. Qed.

Lemma hex_of_index_octet (a : N) :
  (a < 256)%N → hex_of_index (pretty a) = Ok (hex2 a).
Proof.
  intros Ha. pose proof octet_index_table as Htable.
  rewrite forallb_forall in Htable.
  specialize (Htable (N.to_nat a)). rewrite N2Nat.id in Htable.
  destruct (hex_of_index (pretty a)) as [s|e].
  - f_equal. apply String.eqb_eq, Htable, in_seq. lia.
  - discriminate Htable. apply in_seq. lia.
Qed.

Lemma mapM_cons {A B} (f : A → result B) (x : A) (l : list A) :
  mapM f (x :: l) = y ← f x; k ← mapM f l; mret (y :: k).
Proof. reflexivity. Qed.

Lemma mapM_hex_of_index (octets : list N) :
  Forall (λ a, (a < 256)%N) octets →
  mapM hex_of_index (pretty <$> octets) = Ok (hex2 <$> octets).
Proof.
  induction 1 as [|a octets Ha _ IH]; [done|].
  rewrite fmap_cons, mapM_cons, hex_of_index_octet, IH by done. reflexivity.
Qed.

Lemma mapM_raise {A B} (f : A → result B) (l : list A) e :
  mapM f l = Raise e → ∃ x, x ∈ l ∧ f x = Raise e.
Proof.
  induction l as [|x l IH]; [done|].
  rewrite mapM_cons. destruct (f x) as [y|e'] eqn:Hx; simpl.
  - destruct (mapM f l) as [k|e'']; simpl; [done|].
    intros [= ->]. destruct IH as (x' & ? & ?); [done|].
    exists x'. split; [by right|done].
  - intros [= ->]. exists x. split; [by left|done].
Qed.

Lemma startswith_cons a pre b s :
  Py.startswith (String a pre) (String b s) = Ascii.eqb a b && Py.startswith pre s.
Proof. reflexivity. Qed.

Lemma startswith_iso_dotted (components : list N) :
  Py.startswith "iso." (dotted components) = false.
Proof.
  destruct components as [|x l]; [done|].
  pose proof (pretty_N_digits x) as Hx. unfold dotted.
  assert (∀ rest, Py.startswith "iso." (pretty x +:+ "." +:+ rest) = false) as Hpre.
  { intros rest. destruct (pretty x) as [|c s]; [reflexivity|].
    apply andb_true_iff in Hx as [Hc _].
    rewrite app_cons, startswith_cons.
    destruct (Ascii.eqb_spec "i" c) as [<-|]; [discriminate Hc|done]. }
  destruct l as [|y l].
  - change (Py.join "." (pretty <$> [x])) with (pretty x).
    destruct (pretty x) as [|c s]; [done|].
    apply andb_true_iff in Hx as [Hc _]. rewrite startswith_cons.
    destruct (Ascii.eqb_spec "i" c) as [<-|]; [discriminate Hc|done].
  - apply Hpre.
Qed.

(** C2. For every sixteen octets [A] and every identifier made of a base of
    nine components, an interface index, an address type and the octets of
    [A], the IPv6 row decoder returns the colon-hex grouping of [A] followed
    by ["/64"], and it returns the same when the identifier carries the root
    label ["iso."]. *)
Theorem ipv6_row_colon_hex (base : list N) (ifIndex addrType : N) (A : list N) :
  length base = 9%nat → length A = 16%nat → Forall (λ a, (a < 256)%N) A →
  ipv6_row (dotted (base ++ [ifIndex; addrType] ++ A))
    = Ok (Some (colon_hex A +:+ "/64"))
  ∧ ipv6_row ("iso." +:+ dotted (base ++ [ifIndex; addrType] ++ A))
    = ipv6_row (dotted (base ++ [ifIndex; addrType] ++ A)).
Proof.
  intros Hbase HA Hoctets. split.
  - unfold ipv6_row. rewrite startswith_iso_dotted.
    rewrite split_dotted by (by destruct base).
    rewrite !fmap_app, !length_app, !length_fmap, Hbase, HA.
    change (base_parts + 18 <=? 9 + (length [ifIndex; addrType] + 16))%nat with true.
    cbv iota.
    assert (Py.slice (base_parts + 2) (base_parts + 18)
              ((pretty <$> base) ++ (pretty <$> [ifIndex; addrType]) ++ (pretty <$> A))
            = pretty <$> A) as ->.
    { unfold Py.slice. rewrite app_assoc, drop_app_length'.
      - apply take_ge. rewrite length_fmap. unfold base_parts. lia.
      - rewrite length_app, !length_fmap, Hbase. reflexivity. }
    rewrite length_fmap, HA. change (16 =? 16)%nat with true. cbv iota.
    rewrite mapM_hex_of_index by done.
    do 16 (destruct A as [|? A]; [discriminate HA|]).
    destruct A; [|discriminate HA]. reflexivity.
  - unfold ipv6_row. rewrite startswith_iso_dotted. reflexivity.
Qed.

Lemma ipv6_row_colon_hex_witness :
  let base := [3; 6; 1; 2; 1; 4; 34; 1; 3]%N in
  let A := [32; 1; 13; 184; 0; 1; 0; 0; 0; 0; 0; 0; 0; 0; 0; 1]%N in
  (length base = 9%nat ∧ length A = 16%nat ∧ Forall (λ a, (a < 256)%N) A)
  ∧ ipv6_row (dotted (base ++ [1; 2]%N ++ A)) = Ok (Some (colon_hex A +:+ "/64"))
  ∧ ipv6_row ("iso." +:+ dotted (base ++ [1; 2]%N ++ A))
    = ipv6_row (dotted (base ++ [1; 2]%N ++ A)).
Proof.
  intros base A.
  assert (Hoctets : Forall (λ a, (a < 256)%N) A) by (repeat constructor).
  split; [by repeat split|].
  exact (ipv6_row_colon_hex base 1 2 A eq_refl eq_refl Hoctets).
Defined.

Lemma hex_of_index_raise idx e :
  hex_of_index idx = Raise e → e = ValueError ∧ Py.int idx = None.
Proof. unfold hex_of_index. destruct (Py.int idx); [done|]. by intros [= <-]. Qed.

(** C4. An identifier whose components after the base are fewer than the
    eighteen required gives no result and raises no error, and the loop goes
    on to the next binding; the row decoder raises only [ValueError], and only
    when one of the sixteen components read as address octets is not a
    number. *)
Theorem ipv6_row_short_or_malformed (var_oid : string) :
  ((length (oid_parts var_oid) < base_parts + 18)%nat →
     ipv6_row var_oid = Ok None
     ∧ ∀ val results acc,
         ipv6_rows (mkVar var_oid val :: results) acc = ipv6_rows results acc)
  ∧ (∀ e, ipv6_row var_oid = Raise e →
       e = ValueError
       ∧ ∃ idx, idx ∈ Py.slice (base_parts + 2) (base_parts + 18) (oid_parts var_oid)
                ∧ Py.int idx = None).
Proof.
  split.
  - intros Hshort.
    assert (ipv6_row var_oid = Ok None) as Hrow.
    { unfold ipv6_row. fold (oid_parts var_oid).
      by rewrite (proj2 (Nat.leb_gt _ _) Hshort). }
    split; [done|]. intros val results acc. simpl. by rewrite Hrow.
  - intros e. unfold ipv6_row. fold (oid_parts var_oid).
    destruct (base_parts + 18 <=? length (oid_parts var_oid))%nat; [|done].
    destruct (length _ =? 16)%nat; [|done].
    destruct (mapM hex_of_index _) as [bytes|e'] eqn:Hbytes; [done|].
    simpl. intros [= ->].
    apply mapM_raise in Hbytes as (idx & Hin & Hidx).
    apply hex_of_index_raise in Hidx as [-> Hint]. eauto.
Qed.

Lemma ipv6_row_short_or_malformed_witness :
  let short := "iso.3.6.1.2.1.4.34.1.3.1.2.32.1.13.184.0.1.0.0.0.0" in
  let bad := "3.6.1.2.1.4.34.1.3.1.2.32.1.13.184.0.1.0.0.0.0.0.x.0.0.0.1" in
  ((length (oid_parts short) < base_parts + 18)%nat
   ∧ ipv6_row short = Ok None
   ∧ ∀ val results acc,
       ipv6_rows (mkVar short val :: results) acc = ipv6_rows results acc)
  ∧ (ipv6_row bad = Raise ValueError
     ∧ ValueError = ValueError
     ∧ ∃ idx, idx ∈ Py.slice (base_parts + 2) (base_parts + 18) (oid_parts bad)
              ∧ Py.int idx = None).
Proof.
  intros short bad. split.
  - assert (Hshort : (length (oid_parts short) < base_parts + 18)%nat)
      by (vm_compute; lia).
    split; [exact Hshort|].
    exact (proj1 (ipv6_row_short_or_malformed short) Hshort).
  - assert (Hbad : ipv6_row bad = Raise ValueError) by reflexivity.
    split; [exact Hbad|].
    exact (proj2 (ipv6_row_short_or_malformed bad) ValueError Hbad).
Defined.

(** The base counts nine components, those of the table entry once the
    label ["iso"] has stood for its first one. An identifier written with
    the ten numeric components of the table entry has its address read one
    component early. *)
Example ipv6_row_numeric_root :
  ipv6_row "1.3.6.1.2.1.4.34.1.3.2.16.32.1.13.184.0.1.0.0.0.0.0.0.0.0.0.1"
  = Ok (Some "1020:010d:b800:0100:0000:0000:0000:0000/64").
Proof. reflexivity. Qed.

End ipv6.

(** ** Interface status *)

Section interface_status.
Import NMsnmp.

Lemma status_lookup_outside (status_code : string) :
  status_code ∉ status_keys → INTERFACE_STATUS !! status_code = None.
Proof. intros Hout. by apply not_elem_of_list_to_map_1. Qed.

Lemma pretty_outside_keys (z : Z) : ¬ (1 ≤ z ≤ 7) → pretty z ∉ status_keys.
Proof.
  intros Hz Hin. apply Hz. unfold status_keys in Hin.
  rewrite !elem_of_cons, elem_of_nil in Hin.
  destruct Hin as [H|[H|[H|[H|[H|[H|[H|[]]]]]]]].
  - assert (z = 1) by (apply (inj pretty); exact H). lia.
  - assert (z = 2) by (apply (inj pretty); exact H). lia.
  - assert (z = 3) by (apply (inj pretty); exact H). lia.
  - assert (z = 4) by (apply (inj pretty); exact H). lia.
  - assert (z = 5) by (apply (inj pretty); exact H). lia.
  - assert (z = 6) by (apply (inj pretty); exact H). lia.
  - assert (z = 7) by (apply (inj pretty); exact H). lia.
Qed.

(** No binding is ever stored under a name that reads [null0] in lower
    case. *)
Lemma status_rows_null0 interface_names results interface_data if_name :
  Py.lower if_name = "null0" →
  interface_data !! if_name = None →
  status_rows interface_names results interface_data !! if_name = None.
Proof.
  intros Hnull. revert interface_data.
  induction results as [|var results IH]; intros interface_data Hdata; [done|].
  unfold status_rows. simpl. apply IH.
  case_decide as Hname; [|done].
  rewrite lookup_insert_ne; [done|]. intros Heq. apply Hname. by rewrite Heq.
Qed.

(** C5. The status decoder gives a name and a label for every status code,
    interface-name table and interface index: the label is ["unknown"] for
    every code that is not one of 1 to 7, the name is ["if"] followed by the
    index when the table has no entry for the index; and the dictionary
    returned by [fetch_interface_status] has no entry under a name that is
    [Null0] in any letter case. *)
Theorem interface_status_total (status_code : string)
    (interface_names : gmap string string) (if_index : string) :
  (∃ if_name status,
     decode_interface_status status_code interface_names if_index = (if_name, status)
     ∧ (status_code ∉ status_keys → status = "unknown")
     ∧ (interface_names !! if_index = None → if_name = "if" +:+ if_index))
  ∧ (∀ z : Z, ¬ (1 ≤ z ≤ 7) →
       (decode_interface_status (pretty z) interface_names if_index).2 = "unknown")
  ∧ (∀ name_results status_results if_name,
       Py.lower if_name = "null0" →
       fetch_interface_status name_results status_results !! if_name = None).
Proof.
  split; [|split].
  - eexists _, _. split; [reflexivity|]. split.
    + intros Hout. by rewrite status_lookup_outside.
    + by intros ->.
  - intros z Hz. unfold decode_interface_status. simpl.
    by rewrite status_lookup_outside by (by apply pretty_outside_keys).
  - intros name_results status_results if_name Hnull.
    by apply status_rows_null0.
Qed.

Lemma interface_status_total_witness :
  let names : gmap string string := {[ "1" := "Fa0/0" ]} in
  (("9" ∉ status_keys) ∧ (names !! "2" = None) ∧ (¬ (1 ≤ 9 ≤ 7))
   ∧ (Py.lower "NULL0" = "null0"))
  ∧ (∃ if_name status,
       decode_interface_status "9" names "2" = (if_name, status)
       ∧ status = "unknown" ∧ if_name = "if2")
  ∧ (decode_interface_status (pretty 9) names "2").2 = "unknown"
  ∧ fetch_interface_status
      (Some [mkVar "a.1" "Fa0/0"; mkVar "a.2" "NULL0"])
      (Some [mkVar "b.1" "1"; mkVar "b.2" "2"]) !! "NULL0" = None.
Proof.
  intros names.
  assert (H1 : "9" ∉ status_keys)
    by (apply (bool_decide_unpack _); vm_compute; exact I).
  assert (H2 : names !! "2" = None) by reflexivity.
  assert (H3 : ¬ (1 ≤ 9 ≤ 7)) by lia.
  assert (H4 : Py.lower "NULL0" = "null0") by reflexivity.
  split; [done|].
  destruct (interface_status_total "9" names "2") as ((n & s & Heq & Hs & Hn) & Hz & Hnull).
  split; [|split].
  - exists n, s. split; [exact Heq|]. split; [exact (Hs H1)|exact (Hn H2)].
  - exact (Hz 9 H3).
  - exact (Hnull _ _ "NULL0" H4).
Defined.

End interface_status.

(** ** Words of an integer *)

Section words.
Import netaddr.

(** A property checked on the 256 octets holds of every octet. *)
Lemma octet_table (P : Z → bool) :
  forallb (λ n, P (Z.of_nat n)) (seq 0 256) = true → ∀ w, octet w → P w = true.
Proof.
  intros Htable w Hw. rewrite forallb_forall in Htable.
  specialize (Htable (Z.to_nat w)). rewrite Z2Nat.id in Htable by apply Hw.
  apply Htable, in_seq. unfold octet in Hw. lia.
Qed.

Lemma words_to_int_from (l : list Z) (k : nat) (acc : Z) :
  foldl (λ int_val '(i, num), Z.lor int_val (Z.shiftl num (8 * Z.of_nat i)))
    acc (imap (λ i x, ((k + i)%nat, x)) l)
  = Z.lor acc (Z.shiftl (le_val l) (8 * Z.of_nat k)).
Proof.
  revert k acc. induction l as [|x l IH]; intros k acc.
  - simpl. by rewrite Z.shiftl_0_l, Z.lor_0_r.
  - simpl. rewrite (imap_ext _ (λ i x, ((S k + i)%nat, x))) by (intros; simpl; f_equal; lia).
    rewrite IH, Nat.add_0_r, Z.shiftl_lor, Z.shiftl_shiftl by lia.
    rewrite Z.lor_assoc. do 3 f_equal. lia.
Qed.

Lemma words_to_int_le_val (ws : list Z) : words_to_int ws 8 = le_val (rev ws).
Proof.
  unfold words_to_int.
  rewrite (imap_ext _ (λ i x, ((0 + i)%nat, x))) by done.
  rewrite words_to_int_from. simpl. by rewrite Z.shiftl_0_r.
Qed.

Lemma low_octet (x y : Z) :
  octet x → Z.land (Z.lor x (Z.shiftl y 8)) (2 ^ 8 - 1) = x.
Proof.
  intros Hx. change (2 ^ 8 - 1) with (Z.ones 8).
  rewrite Z.land_lor_distr_l, !Z.land_ones by lia.
  rewrite Z.shiftl_mul_pow2, Z.mod_mul, Z.lor_0_r by lia.
  apply Z.mod_small. exact Hx.
Qed.

Lemma high_octets (x y : Z) :
  octet x → Z.shiftr (Z.lor x (Z.shiftl y 8)) 8 = y.
Proof.
  intros Hx. rewrite Z.shiftr_lor, Z.shiftr_shiftl_l by lia.
  rewrite Z.shiftr_div_pow2, Z.div_small by (try apply Hx; lia).
  by rewrite Z.sub_diag, Z.shiftl_0_r.
Qed.

Lemma int_to_words_go_le_val (l acc : list Z) :
  Forall octet l →
  int_to_words_go 8 (length l) (le_val l) acc = (rev l ++ acc)%list.
Proof.
  intros Hl. revert acc. induction Hl as [|x l Hx Hl IH]; intros acc; [done|].
  simpl. rewrite low_octet, high_octets, IH by done.
  by rewrite <- List.app_assoc.
Qed.

(** Reading back the words of a value built from octets gives the octets. *)
Lemma int_to_words_to_int (ws : list Z) :
  Forall octet ws → int_to_words (words_to_int ws 8) 8 (length ws) = ws.
Proof.
  intros Hws. unfold int_to_words. rewrite words_to_int_le_val.
  rewrite <- (length_rev ws), int_to_words_go_le_val by (by apply Forall_rev).
  by rewrite rev_involutive, List.app_nil_r.
Qed.

Lemma int_to_words_go_octets (n : nat) (v : Z) (acc : list Z) :
  Forall octet acc → Forall octet (int_to_words_go 8 n v acc).
Proof.
  revert v acc. induction n as [|n IH]; intros v acc Hacc; [done|].
  simpl. apply IH. constructor; [|done].
  change (2 ^ 8 - 1) with (Z.ones 8). rewrite Z.land_ones by lia.
  apply Z.mod_pos_bound. lia.
Qed.

Lemma int_to_words_go_length (n : nat) (v : Z) (acc : list Z) :
  length (int_to_words_go 8 n v acc) = (n + length acc)%nat.
Proof.
  revert v acc. induction n as [|n IH]; intros v acc; [done|].
  simpl. rewrite IH. simpl. lia.
Qed.

Lemma int_to_words_eight (v : Z) :
  ∃ w0 w1 w2 w3 w4 w5 w6 w7,
    int_to_words v 8 8 = [w0; w1; w2; w3; w4; w5; w6; w7]
    ∧ Forall octet [w0; w1; w2; w3; w4; w5; w6; w7].
Proof.
  pose proof (int_to_words_go_length 8 v []) as Hlen.
  pose proof (int_to_words_go_octets 8 v [] (List.Forall_nil _)) as Hoct.
  fold (int_to_words v 8 8) in Hlen, Hoct.
  destruct (int_to_words v 8 8) as [|w0 [|w1 [|w2 [|w3 [|w4 [|w5 [|w6 [|w7 [|]]]]]]]]];
    try discriminate Hlen.
  by exists w0, w1, w2, w3, w4, w5, w6, w7.
Qed.

Lemma flip_octet (w : Z) : octet w → octet (Z.lxor w 2).
Proof.
  intros Hw. unfold octet.
  pose proof (octet_table (λ w, (0 <=? Z.lxor w 2) && (Z.lxor w 2 <? 256)) eq_refl w Hw) as H.
  apply andb_true_iff in H as [H1 H2]. lia.
Qed.

End words.

(** ** The text of an identifier *)

Section rendering.
Import netaddr.

Lemma EUI_str_render (v : version) (int_val : Z) :
  EUI_str (mkEUI v int_val) = render (int_to_words int_val 8 (num_words v)).
Proof. reflexivity. Qed.

Lemma startswith_nil (s : string) : Py.startswith "" s = true.
Proof. by destruct s. Qed.

Lemma startswith_short (old s : string) :
  (String.length s < String.length old)%nat → Py.startswith old s = false.
Proof.
  revert s. induction old as [|a old IH]; intros [|b s] Hlen; simpl in *;
    try lia; try done.
  rewrite IH by lia. apply andb_false_r.
Qed.

Lemma replace_from_0 old new c s :
  Py.replace_from old new 0 (String c s)
  = if Py.startswith old (String c s)
    then new +:+ Py.replace_from old new (String.length old - 1) s
    else String c (Py.replace_from old new 0 s).
Proof. reflexivity. Qed.

Lemma replace_short old new s :
  (String.length s < String.length old)%nat → Py.replace_from old new 0 s = s.
Proof.
  induction s as [|c s IH]; intros Hlen; [done|].
  rewrite replace_from_0, startswith_short by done.
  simpl in Hlen. rewrite IH by lia. done.
Qed.

Lemma word_facts_table (w : Z) : octet w → word_facts w = true.
Proof. apply (octet_table word_facts). vm_compute. reflexivity. Qed.

Ltac word_facts w H :=
  let F := fresh in
  pose proof (word_facts_table w H) as F; unfold word_facts in F;
  do 7 (apply andb_true_iff in F as [F ?]).

Lemma startswith_marker (a b : Z) (rest : string) :
  octet a → octet b →
  Py.startswith "FF-FE-" (word_fmt a +:+ "-" +:+ word_fmt b +:+ "-" +:+ rest)
  = (a =? 255) && (b =? 254).
Proof.
  intros Ha Hb. word_facts a Ha. word_facts b Hb.
  repeat match goal with
         | H : Bool.eqb _ _ = true |- _ => apply Bool.eqb_prop in H
         end.
  repeat match goal with
         | H : Py.startswith _ (word_fmt ?w) = (?w =? ?n) |- _ =>
             rewrite <- H; clear H
         end.
  unfold word_fmt. rewrite !app_cons, !app_nil_l, !startswith_cons, !startswith_nil.
  change (Ascii.eqb "-" "-") with true.
  by repeat match goal with
            | |- context [Ascii.eqb ?x ?y] => destruct (Ascii.eqb x y)
            end.
Qed.

Lemma replace_step (a b : Z) (rest : string) :
  octet a → octet b → ¬ (a = 255 ∧ b = 254) →
  Py.replace_from "FF-FE-" "" 0 (word_fmt a +:+ "-" +:+ word_fmt b +:+ "-" +:+ rest)
  = word_fmt a +:+ "-"
    +:+ Py.replace_from "FF-FE-" "" 0 (word_fmt b +:+ "-" +:+ rest).
Proof.
  intros Ha Hb Hne.
  pose proof (startswith_marker a b rest Ha Hb) as Hstart.
  replace ((a =? 255) && (b =? 254)) with false in Hstart
    by (symmetry; apply andb_false_iff; lia).
  revert Hstart. generalize (word_fmt b +:+ "-" +:+ rest). intros tail.
  unfold word_fmt.
  generalize (hex_upper (a / 16)) (hex_upper (a mod 16)). intros h l.
  rewrite !app_cons, !app_nil_l. intros Hstart.
  rewrite replace_from_0, Hstart.
  rewrite replace_from_0, startswith_cons, startswith_cons.
  change (Ascii.eqb "F" "-") with false.
  rewrite andb_false_l, andb_false_r.
  rewrite replace_from_0, startswith_cons.
  change (Ascii.eqb "F" "-") with false. rewrite andb_false_l.
  reflexivity.
Qed.

Lemma replace_marker (rest : string) :
  Py.replace_from "FF-FE-" "" 0 (word_fmt 255 +:+ "-" +:+ word_fmt 254 +:+ "-" +:+ rest)
  = Py.replace_from "FF-FE-" "" 0 rest.
Proof. reflexivity. Qed.

Lemma replace_last (a b : Z) :
  Py.replace_from "FF-FE-" "" 0 (word_fmt a +:+ "-" +:+ word_fmt b)
  = word_fmt a +:+ "-" +:+ word_fmt b.
Proof. apply replace_short. simpl. lia. Qed.

(** *** Reading the text back *)

Lemma free_of_app sep s t :
  free_of sep (s +:+ t) = free_of sep s && free_of sep t.
Proof.
  induction s as [|c s IH]; [done|].
  rewrite app_cons. unfold free_of in *. simpl. by rewrite IH, andb_assoc.
Qed.

Lemma free_of_render sep ws :
  (∀ w, octet w → free_of sep (word_fmt w) = true) → Ascii.eqb "-" sep = false →
  Forall octet ws → free_of sep (render ws) = true.
Proof.
  intros Hword Hsep Hws. induction Hws as [|a ws Ha Hws IH]; [done|].
  destruct ws as [|b ws]; [by apply Hword|].
  unfold render in *. rewrite !fmap_cons, join_cons, !free_of_app.
  rewrite <- fmap_cons, IH, Hword by done.
  change (free_of sep "-") with (negb (Ascii.eqb "-" sep) && true).
  by rewrite Hsep.
Qed.

Lemma word_free_dash w : octet w → free_of "-" (word_fmt w) = true.
Proof. intros Hw. by word_facts w Hw. Qed.

Lemma word_free_colon w : octet w → free_of ":" (word_fmt w) = true.
Proof. intros Hw. by word_facts w Hw. Qed.

Lemma word_free_dot w : octet w → free_of "." (word_fmt w) = true.
Proof. intros Hw. by word_facts w Hw. Qed.

Lemma split_render ws :
  ws ≠ [] → Forall octet ws → Py.split "-" (render ws) = word_fmt <$> ws.
Proof.
  intros Hne Hws. apply split_join; [by destruct ws|].
  apply Forall_fmap. eapply Forall_impl; [exact Hws|]. apply word_free_dash.
Qed.

Lemma findall_colon ws g lo hi :
  Forall octet ws → g ≠ 1%nat →
  findall (mkFormat (Some ":"%char) g lo hi) (render ws) = None.
Proof.
  intros Hws Hg. unfold findall. simpl.
  rewrite split_free by (by apply free_of_render; [apply word_free_colon|..]).
  simpl. destruct g as [|[|g]]; done.
Qed.

Lemma findall_dot ws g lo hi :
  Forall octet ws → g ≠ 1%nat →
  findall (mkFormat (Some "."%char) g lo hi) (render ws) = None.
Proof.
  intros Hws Hg. unfold findall. simpl.
  rewrite split_free by (by apply free_of_render; [apply word_free_dot|..]).
  simpl. destruct g as [|[|g]]; done.
Qed.

Lemma findall_dash ws g lo hi :
  ws ≠ [] → Forall octet ws →
  findall (mkFormat (Some "-"%char) g lo hi) (render ws)
  = if (length ws =? g)%nat && forallb (hex_group lo hi) (word_fmt <$> ws)
    then Some (word_fmt <$> ws) else None.
Proof.
  intros Hne Hws. unfold findall. simpl.
  by rewrite split_render, length_fmap by done.
Qed.

Lemma forallb_hex_group ws :
  Forall octet ws → forallb (hex_group 1 2) (word_fmt <$> ws) = true.
Proof.
  induction 1 as [|w ws Hw _ IH]; [done|].
  rewrite fmap_cons. simpl forallb. rewrite IH, andb_true_r. by word_facts w Hw.
Qed.

Lemma not_hex_with_dash x rest :
  forallb Py.is_hex (list_ascii_of_string (x +:+ String "-" rest)) = false.
Proof.
  induction x as [|c x IH]; [done|].
  rewrite app_cons. simpl. rewrite IH. apply andb_false_r.
Qed.

Lemma findall_bare a b ws lo hi :
  findall (mkFormat None 1 lo hi) (render (a :: b :: ws)) = None.
Proof.
  assert (hex_group lo hi (render (a :: b :: ws)) = false) as Hgroup.
  { unfold hex_group, render. rewrite !fmap_cons, join_cons.
    rewrite (app_cons "-" "" _), app_nil_l.
    by rewrite not_hex_with_dash, andb_false_r. }
  unfold findall. simpl. by rewrite Hgroup.
Qed.

Lemma int16_words ws : Forall octet ws → Py.int16 <$> (word_fmt <$> ws) = ws.
Proof.
  induction 1 as [|w ws Hw _ IH]; [done|].
  rewrite !fmap_cons, IH. f_equal. word_facts w Hw. lia.
Qed.

Lemma rstrip_cons c s :
  Py.rstrip (String c s)
  = match Py.rstrip s with
    | "" => if Py.is_space c then "" else String c ""
    | r => String c r
    end.
Proof. reflexivity. Qed.

Lemma rstrip_keep c s : Py.is_space c = false → ∃ r, Py.rstrip (String c s) = String c r.
Proof. intros Hc. rewrite rstrip_cons, Hc. destruct (Py.rstrip s); eauto. Qed.

Lemma int_digits_cons acc after c s :
  Py.int_digits acc after (String c s)
  = if Py.is_digit c then Py.int_digits (10 * acc + Py.digit_val c) true s
    else if Ascii.eqb c "_" && after then Py.int_digits acc false s
    else None.
Proof. reflexivity. Qed.

(** A text of two words or more is not a decimal numeral. *)
Lemma int_render a b ws : octet a → Py.int (render (a :: b :: ws)) = None.
Proof.
  intros Ha. unfold render. rewrite !fmap_cons, join_cons.
  generalize (Py.join "-" (word_fmt b :: (word_fmt <$> ws))). intros rest.
  word_facts a Ha.
  destruct (word_fmt a) as [|h [|l [|]]]; try done.
  repeat match goal with
         | H : _ && _ = true |- _ => apply andb_true_iff in H as [H ?]
         | H : negb _ = true |- _ => apply negb_true_iff in H
         end.
  rewrite !app_cons, !app_nil_l. unfold Py.int.
  change (Py.lstrip (String h ?s)) with (if Py.is_space h then Py.lstrip s else String h s).
  match goal with H : Py.is_space h = false |- _ => rewrite H end.
  destruct (rstrip_keep "-" rest eq_refl) as [r Hr].
  rewrite (rstrip_cons h), (rstrip_cons l), Hr.
  repeat match goal with H : Ascii.eqb h _ = false |- _ => rewrite H; clear H end.
  rewrite int_digits_cons. destruct (Py.is_digit h); [|by rewrite andb_false_r].
  rewrite int_digits_cons. destruct (Py.is_digit l).
  - by rewrite int_digits_cons.
  - by match goal with H : Ascii.eqb l _ = false |- _ => rewrite H end.
Qed.

Ltac no_match :=
  first [ rewrite findall_colon by (done || lia)
        | rewrite findall_dot by (done || lia)
        | rewrite findall_bare
        | rewrite findall_dash by done; simpl length; simpl Nat.eqb; cbv iota ].

Lemma EUI_of_str_six (m0 m1 m2 m3 m4 m5 : Z) :
  Forall octet [m0; m1; m2; m3; m4; m5] →
  EUI_of_str (render [m0; m1; m2; m3; m4; m5])
  = Ok (mkEUI EUI48 (words_to_int [m0; m1; m2; m3; m4; m5] 8)).
Proof.
  intros Hws. unfold EUI_of_str, EUI_detect, str_to_int, eui48_str_to_int.
  unfold RE_MAC_FORMATS, first_match.
  rewrite findall_colon by (done || lia).
  rewrite findall_dash by done.
  rewrite forallb_hex_group by done. simpl length. simpl Nat.eqb. cbv iota.
  rewrite andb_true_l. cbv iota. simpl length. cbv iota.
  by rewrite int16_words.
Qed.

Lemma EUI_of_str_eight (w0 w1 w2 w3 w4 w5 w6 w7 : Z) :
  Forall octet [w0; w1; w2; w3; w4; w5; w6; w7] →
  EUI_of_str (render [w0; w1; w2; w3; w4; w5; w6; w7])
  = Ok (mkEUI EUI64 (words_to_int [w0; w1; w2; w3; w4; w5; w6; w7] 8)).
Proof.
  intros Hws. unfold EUI_of_str, EUI_detect, str_to_int.
  assert (eui48_str_to_int (render [w0; w1; w2; w3; w4; w5; w6; w7])
          = Raise AddrFormatError) as ->.
  { unfold eui48_str_to_int, RE_MAC_FORMATS, first_match.
    by do 9 no_match. }
  rewrite int_render by (by inversion Hws).
  unfold eui64_str_to_int, RE_EUI64_FORMATS, first_match.
  rewrite findall_colon by (done || lia).
  rewrite findall_dash by done.
  rewrite forallb_hex_group by done. simpl length. simpl Nat.eqb. cbv iota.
  rewrite andb_true_l. cbv iota. simpl length. cbv iota.
  by rewrite int16_words.
Qed.

End rendering.

(** ** The address codec *)

Section codec.
Import netaddr NMtcpdump.

Lemma land_low_64 (ip : Z) : Z.land ip 0xFFFFFFFFFFFFFFFF = ip mod 2 ^ 64.
Proof. change 0xFFFFFFFFFFFFFFFF with (Z.ones 64). apply Z.land_ones. lia. Qed.

Lemma bind_ok {A B} (a : A) (k : A → result B) : Ok a ≫= k = k a.
Proof. reflexivity. Qed.

(** Up to the call of [replace], [eui64_to_mac] cannot fail on an address
    that [IPAddress] reads. *)
Lemma eui64_to_mac_words (ipv6_addr : string) (ip w0 w1 w2 w3 w4 w5 w6 w7 : Z) :
  IPAddress ipv6_addr = Some ip →
  iid_words ip = [w0; w1; w2; w3; w4; w5; w6; w7] →
  Forall octet [w0; w1; w2; w3; w4; w5; w6; w7] →
  eui64_to_mac ipv6_addr
  = mac ← EUI_of_str
            (Py.replace "FF-FE-" "" (render [Z.lxor w0 2; w1; w2; w3; w4; w5; w6; w7]));
    Ok (EUI_str mac).
Proof.
  intros Hip Hwords Hoct. unfold eui64_to_mac. rewrite Hip.
  unfold iid_words in Hwords.
  assert (EUI_of_int (Z.land ip 0xFFFFFFFFFFFFFFFF) EUI64
          = Ok (mkEUI EUI64 (Z.land ip 0xFFFFFFFFFFFFFFFF))) as ->.
  { unfold EUI_of_int. rewrite land_low_64.
    pose proof (Z.mod_pos_bound ip (2 ^ 64) ltac:(lia)) as Hbound.
    replace (0 <=? ip mod 2 ^ 64) with true by (symmetry; apply Z.leb_le; lia).
    replace (ip mod 2 ^ 64 <=? max_int EUI64) with true; [done|].
    symmetry. apply Z.leb_le. unfold max_int. lia. }
  assert (octet (Z.lxor w0 2)) as Hflip by (apply flip_octet; by inversion Hoct).
  assert (Forall octet [Z.lxor w0 2; w1; w2; w3; w4; w5; w6; w7]) as Hoct'.
  { inversion Hoct; subst. by constructor. }
  rewrite bind_ok. unfold EUI_getitem. simpl module. simpl value. simpl num_words.
  change ((- Z.of_nat 8 <=? 0) && (0 <=? Z.of_nat 8 - 1)) with true. cbv iota.
  change (Z.to_nat (if 0 <? 0 then Z.of_nat 8 + 0 else 0)) with 0%nat.
  rewrite Hwords. change ([w0; w1; w2; w3; w4; w5; w6; w7] !! 0%nat) with (Some w0).
  cbv iota. rewrite bind_ok.
  unfold EUI_setitem. simpl module. simpl value. simpl num_words. rewrite Hwords.
  change (negb ((0 <=? 0) && (0 <=? Z.of_nat 8 - 1))) with false. cbv iota.
  replace (0 <=? Z.lxor w0 2) with true by (symmetry; apply Z.leb_le; apply Hflip).
  replace (Z.lxor w0 2 <=? 255) with true
    by (symmetry; apply Z.leb_le; unfold octet in Hflip; lia).
  change (negb (true && true)) with false. cbv iota.
  change (<[Z.to_nat 0:=Z.lxor w0 2]> [w0; w1; w2; w3; w4; w5; w6; w7])
    with [Z.lxor w0 2; w1; w2; w3; w4; w5; w6; w7].
  rewrite bind_ok, EUI_str_render. simpl num_words.
  pose proof (int_to_words_to_int _ Hoct') as Hback. simpl length in Hback.
  by rewrite Hback.
Qed.
Lemma EUI_str_of_words (v : version) (ws : list Z) :
  Forall octet ws → length ws = num_words v →
  EUI_str (mkEUI v (words_to_int ws 8)) = render ws.
Proof.
  intros Hoct Hlen. rewrite EUI_str_render, <- Hlen.
  by rewrite int_to_words_to_int.
Qed.

(** The text of eight words in which no two neighbours among the first
    seven read [FF], [FE] is left as it is by [replace]. *)
Lemma replace_no_marker (w0 w1 w2 w3 w4 w5 w6 w7 : Z) :
  Forall octet [w0; w1; w2; w3; w4; w5; w6; w7] →
  ¬ (w0 = 255 ∧ w1 = 254) → ¬ (w1 = 255 ∧ w2 = 254) → ¬ (w2 = 255 ∧ w3 = 254) →
  ¬ (w3 = 255 ∧ w4 = 254) → ¬ (w4 = 255 ∧ w5 = 254) → ¬ (w5 = 255 ∧ w6 = 254) →
  Py.replace "FF-FE-" "" (render [w0; w1; w2; w3; w4; w5; w6; w7])
  = render [w0; w1; w2; w3; w4; w5; w6; w7].
Proof.
  intros Hoct H01 H12 H23 H34 H45 H56.
  repeat match goal with
         | H : Forall _ (_ :: _) |- _ => apply Forall_cons in H as [? H]
         end.
  unfold Py.replace, render. rewrite !fmap_cons, fmap_nil, !join_cons, join_one.
  rewrite !replace_step, replace_last by done. reflexivity.
Qed.

(** The text of a modified EUI-64 identifier whose hardware address has no
    [FF], [FE] of its own in the places where [replace] would find them
    loses its two middle words only. *)
Lemma replace_middle_marker (m0 m1 m2 m3 m4 m5 : Z) :
  Forall octet [m0; m1; m2; m3; m4; m5] →
  ¬ (m0 = 255 ∧ m1 = 254) → ¬ (m1 = 255 ∧ m2 = 254) → ¬ (m3 = 255 ∧ m4 = 254) →
  Py.replace "FF-FE-" "" (render [m0; m1; m2; 255; 254; m3; m4; m5])
  = render [m0; m1; m2; m3; m4; m5].
Proof.
  intros Hoct H01 H12 H34.
  repeat match goal with
         | H : Forall _ (_ :: _) |- _ => apply Forall_cons in H as [? H]
         end.
  unfold Py.replace, render. rewrite !fmap_cons, fmap_nil, !join_cons, join_one.
  rewrite (replace_step m0), (replace_step m1), (replace_step m2) by (done || lia).
  rewrite replace_marker, (replace_step m3), replace_last by done. reflexivity.
Qed.

(** When the hardware address has no [FF], [FE] of its own where [replace]
    looks for them, the address is recovered from its modified EUI-64
    identifier. *)
Lemma eui64_to_mac_roundtrip (ipv6_addr : string) (ip m0 m1 m2 m3 m4 m5 : Z) :
  Forall octet [m0; m1; m2; m3; m4; m5] →
  IPAddress ipv6_addr = Some ip →
  Z.land ip 0xFFFFFFFFFFFFFFFF = modified_eui64 [m0; m1; m2; m3; m4; m5] →
  ¬ (m0 = 255 ∧ m1 = 254) → ¬ (m1 = 255 ∧ m2 = 254) → ¬ (m3 = 255 ∧ m4 = 254) →
  eui64_to_mac ipv6_addr = Ok (render [m0; m1; m2; m3; m4; m5]).
Proof.
  intros Hoct Hip Hiid H01 H12 H34.
  assert (Forall octet [Z.lxor m0 2; m1; m2; 255; 254; m3; m4; m5]) as Hoct8.
  { inversion Hoct as [|? ? Hm0 Hrest]; subst.
    inversion Hrest as [|? ? Hm1 Hrest1]; subst.
    inversion Hrest1 as [|? ? Hm2 Hrest2]; subst.
    constructor; [by apply flip_octet|]. do 2 (constructor; [done|]).
    do 2 (constructor; [unfold octet; lia|]). exact Hrest2. }
  assert (iid_words ip = [Z.lxor m0 2; m1; m2; 255; 254; m3; m4; m5]) as Hwords.
  { unfold iid_words. rewrite Hiid. unfold modified_eui64.
    exact (int_to_words_to_int _ Hoct8). }
  rewrite (eui64_to_mac_words _ _ _ _ _ _ _ _ _ _ Hip Hwords Hoct8).
  rewrite Z.lxor_assoc, Z.lxor_nilpotent, Z.lxor_0_r.
  rewrite replace_middle_marker, EUI_of_str_six, bind_ok by done.
  by rewrite EUI_str_of_words.
Qed.

(** The scenario of the specification. *)
Example eui64_to_mac_scenario :
  eui64_to_mac "2001:db8:1::a8bb:ccff:fedd:eeff" = Ok "AA-BB-CC-DD-EE-FF".
Proof. vm_compute. reflexivity. Qed.

(** C1, at the hardware address 00:11:22:ff:fe:33. Its modified EUI-64
    identifier is 0211:22ff:feff:fe33; [replace] removes the marker and the
    octets [FF FE] of the address itself, the four words left are read as an
    EUI-64 of four groups, and the result is not the address. *)
Theorem eui64_to_mac_second_marker :
  (∃ ip, IPAddress "2001:db8:1::211:22ff:feff:fe33" = Some ip
         ∧ Z.land ip 0xFFFFFFFFFFFFFFFF
           = modified_eui64 [0x00; 0x11; 0x22; 0xFF; 0xFE; 0x33])
  ∧ eui64_to_mac "2001:db8:1::211:22ff:feff:fe33" = Ok "00-00-00-11-00-22-00-33"
  ∧ render [0x00; 0x11; 0x22; 0xFF; 0xFE; 0x33] = "00-11-22-FF-FE-33".
Proof.
  split; [|split].
  - eexists. split; [vm_compute; reflexivity|]. vm_compute. reflexivity.
  - vm_compute. reflexivity.
  - vm_compute. reflexivity.
Qed.

(** C8, the claim as stated fails: octets 3 and 4 of the identifier of
    2001:db8:1::1 are not [FF FE], and [eui64_to_mac] raises nothing: it
    returns a text of eight words. *)
Lemma eui64_to_mac_no_marker_no_error :
  IPAddress "2001:db8:1::1" = Some 0x20010db8000100000000000000000001
  ∧ ¬ (iid_words 0x20010db8000100000000000000000001 !! 3%nat = Some 0xFF
       ∧ iid_words 0x20010db8000100000000000000000001 !! 4%nat = Some 0xFE)
  ∧ eui64_to_mac "2001:db8:1::1" = Ok "02-00-00-00-00-00-00-01"
  ∧ ¬ ∃ e, eui64_to_mac "2001:db8:1::1" = Raise e.
Proof.
  split; [vm_compute; reflexivity|]. split.
  - intros [H3 _]. vm_compute in H3. discriminate H3.
  - split; [vm_compute; reflexivity|].
    intros [e He]. vm_compute in He. discriminate He.
Qed.

(** C8, amended. The marker is not checked: for every address in whose
    identifier, once bit [0x02] of the first octet is flipped, no two
    neighbouring octets among the first seven read [FF], [FE] (octets 3 and
    4 among them), [eui64_to_mac] raises nothing and returns the eight octets
    of the flipped identifier, in upper-case hexadecimal separated by
    hyphens. *)
Theorem eui64_to_mac_unvalidated (ipv6_addr : string) (ip : Z) :
  IPAddress ipv6_addr = Some ip →
  (∀ i, (i < 6)%nat →
        ¬ (flipped_words ip !! i = Some 0xFF ∧ flipped_words ip !! S i = Some 0xFE)) →
  eui64_to_mac ipv6_addr = Ok (render (flipped_words ip)).
Proof.
  intros Hip Hpairs.
  destruct (int_to_words_eight (Z.land ip 0xFFFFFFFFFFFFFFFF))
    as (w0 & w1 & w2 & w3 & w4 & w5 & w6 & w7 & Hwords & Hoct).
  fold (iid_words ip) in Hwords. unfold flipped_words in *. rewrite Hwords in *.
  assert (Forall octet [Z.lxor w0 2; w1; w2; w3; w4; w5; w6; w7]) as Hoct'.
  { inversion Hoct; subst. constructor; [by apply flip_octet|done]. }
  rewrite (eui64_to_mac_words _ _ _ _ _ _ _ _ _ _ Hip Hwords Hoct).
  assert (¬ (Z.lxor w0 2 = 255 ∧ w1 = 254)) as H01
    by (intros [E1 E2]; apply (Hpairs 0%nat); [lia|by rewrite E1, E2]).
  assert (¬ (w1 = 255 ∧ w2 = 254)) as H12
    by (intros [-> ->]; by apply (Hpairs 1%nat); [lia|]).
  assert (¬ (w2 = 255 ∧ w3 = 254)) as H23
    by (intros [-> ->]; by apply (Hpairs 2%nat); [lia|]).
  assert (¬ (w3 = 255 ∧ w4 = 254)) as H34
    by (intros [-> ->]; by apply (Hpairs 3%nat); [lia|]).
  assert (¬ (w4 = 255 ∧ w5 = 254)) as H45
    by (intros [-> ->]; by apply (Hpairs 4%nat); [lia|]).
  assert (¬ (w5 = 255 ∧ w6 = 254)) as H56
    by (intros [-> ->]; by apply (Hpairs 5%nat); [lia|]).
  rewrite replace_no_marker by done.
  rewrite EUI_of_str_eight, bind_ok by done.
  by rewrite EUI_str_of_words.
Qed.

Lemma eui64_to_mac_unvalidated_witness :
  let ip := 0x20010db8000100000000000000000001 in
  (IPAddress "2001:db8:1::1" = Some ip
   ∧ ∀ i, (i < 6)%nat →
          ¬ (flipped_words ip !! i = Some 0xFF ∧ flipped_words ip !! S i = Some 0xFE))
  ∧ eui64_to_mac "2001:db8:1::1" = Ok (render (flipped_words ip)).
Proof.
  intros ip.
  assert (Hip : IPAddress "2001:db8:1::1" = Some ip) by (vm_compute; reflexivity).
  assert (Hpairs : ∀ i, (i < 6)%nat →
            ¬ (flipped_words ip !! i = Some 0xFF ∧ flipped_words ip !! S i = Some 0xFE)).
  { intros i Hi [H1 _].
    destruct i as [|[|[|[|[|[|i]]]]]]; try (vm_compute in H1; discriminate H1). lia. }
  split; [by split|].
  exact (eui64_to_mac_unvalidated "2001:db8:1::1" ip Hip Hpairs).
Defined.

(** C10. Two addresses whose integer values agree modulo [2^64] are mapped
    to the same result by [eui64_to_mac]. *)
Theorem eui64_to_mac_low_64_bits (addr1 addr2 : string) (ip1 ip2 : Z) :
  IPAddress addr1 = Some ip1 → IPAddress addr2 = Some ip2 →
  ip1 mod 2 ^ 64 = ip2 mod 2 ^ 64 →
  eui64_to_mac addr1 = eui64_to_mac addr2.
Proof.
  intros Hip1 Hip2 Hlow. unfold eui64_to_mac. rewrite Hip1, Hip2.
  by rewrite !land_low_64, Hlow.
Qed.

Lemma eui64_to_mac_low_64_bits_witness :
  let ip1 := 0x20010db800010000a8bbccfffeddeeff in
  let ip2 := 0xfe80000000000000a8bbccfffeddeeff in
  (IPAddress "2001:db8:1::a8bb:ccff:fedd:eeff" = Some ip1
   ∧ IPAddress "fe80::a8bb:ccff:fedd:eeff" = Some ip2
   ∧ ip1 mod 2 ^ 64 = ip2 mod 2 ^ 64)
  ∧ eui64_to_mac "2001:db8:1::a8bb:ccff:fedd:eeff"
    = eui64_to_mac "fe80::a8bb:ccff:fedd:eeff".
Proof.
  intros ip1 ip2.
  assert (H1 : IPAddress "2001:db8:1::a8bb:ccff:fedd:eeff" = Some ip1)
    by (vm_compute; reflexivity).
  assert (H2 : IPAddress "fe80::a8bb:ccff:fedd:eeff" = Some ip2)
    by (vm_compute; reflexivity).
  assert (H3 : ip1 mod 2 ^ 64 = ip2 mod 2 ^ 64) by (vm_compute; reflexivity).
  split; [by repeat split|].
  exact (eui64_to_mac_low_64_bits _ _ ip1 ip2 H1 H2 H3).
Defined.

End codec.

(** ** Selecting and naming the addresses *)

Section selection.
Import NMtcpdump.

Lemma selected_sorted prefix src_addrs : Sorted String.le (selected prefix src_addrs).
Proof. apply (Sorted_merge_sort String.le). Qed.

Lemma selected_perm prefix src_addrs :
  selected prefix src_addrs ≡ₚ filter (λ addr, Py.contains prefix addr = true) src_addrs.
Proof. apply (merge_sort_Permutation String.le). Qed.

(** The order of iteration over the set does not show in the sorted list. *)
Lemma selected_order prefix src_addrs src_addrs' :
  src_addrs' ≡ₚ src_addrs → selected prefix src_addrs' = selected prefix src_addrs.
Proof.
  intros Hperm. apply (Sorted_unique String.le); try apply selected_sorted.
  by rewrite !selected_perm, Hperm.
Qed.

Lemma selected_NoDup prefix src_addrs :
  NoDup src_addrs → NoDup (selected prefix src_addrs).
Proof. intros Hnd. rewrite selected_perm. by apply NoDup_filter. Qed.

(** What the loop leaves in the two dictionaries. *)
Lemma assign_lookup (names sel : list string)
    (macs0 ips0 macs ips : gmap string string) :
  NoDup names →
  assign (zip names sel) macs0 ips0 = Ok (macs, ips) →
  (∀ i name, names !! i = Some name →
     match sel !! i with
     | Some addr =>
         ips !! name = Some addr
         ∧ ∃ mac, eui64_to_mac addr = Ok mac ∧ macs !! name = Some mac
     | None => ips !! name = ips0 !! name ∧ macs !! name = macs0 !! name
     end)
  ∧ (∀ name, name ∉ names →
       ips !! name = ips0 !! name ∧ macs !! name = macs0 !! name).
Proof.
  intros Hnd. revert sel macs0 ips0.
  induction Hnd as [|n names Hn Hnd IH]; intros sel macs0 ips0 Hassign.
  { simpl in Hassign. injection Hassign as <- <-. split; [by intros []|done]. }
  destruct sel as [|a sel].
  { simpl in Hassign. injection Hassign as <- <-.
    split; [|done]. intros i name _. by rewrite lookup_nil. }
  simpl in Hassign.
  destruct (eui64_to_mac a) as [mac|e] eqn:Hmac; [|discriminate Hassign].
  simpl in Hassign. apply IH in Hassign as [Hin Hout].
  split.
  - intros [|i] name Hname; simpl in *.
    + injection Hname as <-. destruct (Hout n Hn) as [-> ->].
      rewrite !lookup_insert_eq. eauto.
    + assert (name ≠ n) as Hne.
      { intros ->. apply Hn. by eapply list_elem_of_lookup_2. }
      specialize (Hin i name Hname). destruct (sel !! i); [done|].
      by rewrite !lookup_insert_ne in Hin.
  - intros name [Hne Hname]%not_elem_of_cons.
    destruct (Hout name Hname) as [-> ->].
    by rewrite !lookup_insert_ne.
Qed.

(** The loop ends without an exception when [eui64_to_mac] accepts every
    address that is given a name. *)
Lemma assign_returns (names sel : list string) (macs0 ips0 : gmap string string) :
  (∀ addr, addr ∈ take (length names) sel → ∃ mac, eui64_to_mac addr = Ok mac) →
  ∃ macs ips, assign (zip names sel) macs0 ips0 = Ok (macs, ips).
Proof.
  revert sel macs0 ips0.
  induction names as [|n names IH]; intros sel macs0 ips0 Hok; [by eexists _, _|].
  destruct sel as [|a sel]; [by eexists _, _|].
  simpl. destruct (Hok a) as [mac ->]; [by left|].
  simpl. apply IH. intros addr Haddr. apply Hok. by right.
Qed.

Lemma assign_dom (names sel : list string) (macs ips : gmap string string) :
  NoDup names →
  assign (zip names sel) ∅ ∅ = Ok (macs, ips) →
  dom ips = list_to_set (take (length sel) names) ∧ dom macs = dom ips.
Proof.
  intros Hnd Hassign. destruct (assign_lookup _ _ _ _ _ _ Hnd Hassign) as [Hin Hout].
  assert (∀ k, is_Some (ips !! k) ↔ k ∈ take (length sel) names) as Hips.
  { intros k. rewrite elem_of_take. split.
    - intros Hk. destruct (decide (k ∈ names)) as [Hel|Hel].
      + apply list_elem_of_lookup in Hel as [i Hi]. exists i. split; [done|].
        specialize (Hin i k Hi). destruct (sel !! i) eqn:Hsel.
        * apply lookup_lt_is_Some. by rewrite Hsel.
        * destruct Hin as [Hnone _]. rewrite Hnone, lookup_empty in Hk.
          by destruct Hk.
      + destruct (Hout k Hel) as [Hnone _]. rewrite Hnone, lookup_empty in Hk.
        by destruct Hk.
    - intros (i & Hi & Hlt). specialize (Hin i k Hi).
      apply lookup_lt_is_Some in Hlt as [addr Haddr]. rewrite Haddr in Hin.
      destruct Hin as [-> _]. eauto. }
  assert (∀ k, is_Some (macs !! k) ↔ is_Some (ips !! k)) as Hmacs.
  { intros k. destruct (decide (k ∈ names)) as [Hel|Hel].
    - apply list_elem_of_lookup in Hel as [i Hi]. specialize (Hin i k Hi).
      destruct (sel !! i).
      + destruct Hin as [-> (mac & _ & ->)]. split; eauto.
      + destruct Hin as [-> ->]. done.
    - destruct (Hout k Hel) as [-> ->]. done. }
  split; apply set_eq; intros k.
  - by rewrite elem_of_dom, elem_of_list_to_set.
  - by rewrite !elem_of_dom.
Qed.

(** C6. For every set of addresses, prefix and list of distinct names, the
    addresses that contain the prefix are sorted in the order of their text
    and position [i] of the sorted list is paired with name [i], as far as
    the shorter of the two lists goes; the result is the same for every order
    in which the set is iterated. The function returns the two dictionaries
    whenever [eui64_to_mac] accepts the addresses that are given a name. *)
Theorem select_and_name_sorted_zip (prefix : string) (names src_addrs : list string) :
  NoDup names →
  ∃ sel : list string,
    sel ≡ₚ filter (λ addr, Py.contains prefix addr = true) src_addrs
    ∧ Sorted String.le sel
    ∧ (∀ src_addrs', src_addrs' ≡ₚ src_addrs →
         select_and_name prefix names src_addrs'
         = select_and_name prefix names src_addrs)
    ∧ ((∀ addr, addr ∈ take (length names) sel → ∃ mac, eui64_to_mac addr = Ok mac) →
         ∃ macs ips, select_and_name prefix names src_addrs = Ok (macs, ips))
    ∧ (∀ macs ips,
         select_and_name prefix names src_addrs = Ok (macs, ips) →
         size ips = (length sel `min` length names)%nat
         ∧ size macs = (length sel `min` length names)%nat
         ∧ ∀ i name, names !! i = Some name →
             match sel !! i with
             | Some addr =>
                 ips !! name = Some addr
                 ∧ ∃ mac, eui64_to_mac addr = Ok mac ∧ macs !! name = Some mac
             | None => ips !! name = None ∧ macs !! name = None
             end).
Proof.
  intros Hnd. exists (selected prefix src_addrs).
  split; [apply selected_perm|]. split; [apply selected_sorted|].
  split; [|split].
  - intros src_addrs' Hperm. unfold select_and_name.
    fold (selected prefix src_addrs') (selected prefix src_addrs).
    by rewrite (selected_order _ _ _ Hperm).
  - intros Hok. by apply assign_returns.
  - intros macs ips Hassign. unfold select_and_name in Hassign.
    fold (selected prefix src_addrs) in Hassign.
    destruct (assign_dom _ _ _ _ Hnd Hassign) as [Hips Hmacs].
    destruct (assign_lookup _ _ _ _ _ _ Hnd Hassign) as [Hin _].
    assert (size ips = (length (selected prefix src_addrs) `min` length names)%nat)
      as Hsize.
    { rewrite <- size_dom, Hips, size_list_to_set, length_take; [done|].
      eapply sublist_NoDup; [done|apply sublist_take]. }
    split; [done|]. split; [by rewrite <- size_dom, Hmacs, size_dom|].
    intros i name Hname. specialize (Hin i name Hname).
    destruct (selected prefix src_addrs !! i); [done|].
    by rewrite !lookup_empty in Hin.
Qed.

Lemma select_and_name_sorted_zip_witness :
  let src_addrs :=
    ["fe80::1"; "2001:db8:1::211:22ff:fe33:4455"; "2001:db8:1::a8bb:ccff:fedd:eeff"] in
  NoDup names
  ∧ ∃ sel : list string,
      sel ≡ₚ filter (λ addr, Py.contains "2001:db8:1:" addr = true) src_addrs
      ∧ Sorted String.le sel
      ∧ (∀ src_addrs', src_addrs' ≡ₚ src_addrs →
           select_and_name "2001:db8:1:" names src_addrs'
           = select_and_name "2001:db8:1:" names src_addrs)
      ∧ ((∀ addr, addr ∈ take (length names) sel → ∃ mac, eui64_to_mac addr = Ok mac) →
           ∃ macs ips, select_and_name "2001:db8:1:" names src_addrs = Ok (macs, ips))
      ∧ (∀ macs ips,
           select_and_name "2001:db8:1:" names src_addrs = Ok (macs, ips) →
           size ips = (length sel `min` length names)%nat
           ∧ size macs = (length sel `min` length names)%nat
           ∧ ∀ i name, names !! i = Some name →
               match sel !! i with
               | Some addr =>
                   ips !! name = Some addr
                   ∧ ∃ mac, eui64_to_mac addr = Ok mac ∧ macs !! name = Some mac
               | None => ips !! name = None ∧ macs !! name = None
               end).
Proof.
  intros src_addrs.
  assert (Hnd : NoDup names) by (apply (bool_decide_unpack _); vm_compute; exact I).
  split; [exact Hnd|].
  exact (select_and_name_sorted_zip "2001:db8:1:" names src_addrs Hnd).
Defined.

(** C9. Whenever [extract_mac_addresses] returns, its two dictionaries have
    the same keys, every key is one of the two names, and when both names
    are assigned, ["R2-F0/0"] has the address that comes first in the order
    of the text. *)
Theorem extract_mac_addresses_keys (src_addrs : list string)
    (macs ips : gmap string string) :
  NoDup src_addrs →
  extract_mac_addresses src_addrs = Ok (macs, ips) →
  dom macs = dom ips
  ∧ (∀ name, name ∈ dom ips → name ∈ ["R2-F0/0"; "R3-F0/0"])
  ∧ (∀ a b, ips !! "R2-F0/0" = Some a → ips !! "R3-F0/0" = Some b →
       String.le a b ∧ a ≠ b).
Proof.
  intros Hsrc Hassign. unfold extract_mac_addresses, select_and_name in Hassign.
  fold (selected "2001:db8:1:" src_addrs) in Hassign.
  assert (NoDup names) as Hnd by (apply (bool_decide_unpack _); vm_compute; exact I).
  destruct (assign_dom _ _ _ _ Hnd Hassign) as [Hips Hmacs].
  destruct (assign_lookup _ _ _ _ _ _ Hnd Hassign) as [Hin _].
  split; [done|]. split.
  - intros name. rewrite Hips, elem_of_list_to_set. intros Hname.
    eapply elem_of_sublist; [exact Hname|apply sublist_take].
  - intros a b Ha Hb.
    pose proof (Hin 0%nat "R2-F0/0" eq_refl) as H0.
    pose proof (Hin 1%nat "R3-F0/0" eq_refl) as H1.
    pose proof (selected_sorted "2001:db8:1:" src_addrs) as Hsorted.
    pose proof (selected_NoDup "2001:db8:1:" src_addrs Hsrc) as Hnodup.
    destruct (selected "2001:db8:1:" src_addrs) as [|a' [|b' sel]]; simpl in H0, H1.
    + destruct H0 as [H0 _]. by rewrite H0, lookup_empty in Ha.
    + destruct H1 as [H1 _]. by rewrite H1, lookup_empty in Hb.
    + destruct H0 as [H0 _], H1 as [H1 _].
      rewrite H0 in Ha. rewrite H1 in Hb. injection Ha as <-. injection Hb as <-.
      split.
      * apply Sorted_inv in Hsorted as [_ Hhd]. by inversion Hhd.
      * intros ->. apply NoDup_cons in Hnodup as [Hnot _]. apply Hnot. by left.
Qed.

Lemma extract_mac_addresses_keys_witness :
  let src_addrs :=
    ["fe80::1"; "2001:db8:1::211:22ff:fe33:4455"; "2001:db8:1::a8bb:ccff:fedd:eeff"] in
  ∃ macs ips,
    (NoDup src_addrs ∧ extract_mac_addresses src_addrs = Ok (macs, ips))
    ∧ dom macs = dom ips
    ∧ (∀ name, name ∈ dom ips → name ∈ ["R2-F0/0"; "R3-F0/0"])
    ∧ (∀ a b, ips !! "R2-F0/0" = Some a → ips !! "R3-F0/0" = Some b →
         String.le a b ∧ a ≠ b).
Proof.
  intros src_addrs.
  assert (Hnd : NoDup src_addrs) by (apply (bool_decide_unpack _); vm_compute; exact I).
  destruct (extract_mac_addresses src_addrs) as [[macs ips]|e] eqn:Hex.
  - exists macs, ips. split; [by split|].
    exact (extract_mac_addresses_keys src_addrs macs ips Hnd Hex).
  - vm_compute in Hex. discriminate Hex.
Defined.

End selection.

(** ** More on the address codec *)

Section codec_results.
Import netaddr NMtcpdump.

Lemma eui64_to_mac_roundtrip_witness :
  (Forall octet [0xAA; 0xBB; 0xCC; 0xDD; 0xEE; 0xFF]
   ∧ IPAddress "2001:db8:1::a8bb:ccff:fedd:eeff"
     = Some 0x20010db800010000a8bbccfffeddeeff
   ∧ Z.land 0x20010db800010000a8bbccfffeddeeff 0xFFFFFFFFFFFFFFFF
     = modified_eui64 [0xAA; 0xBB; 0xCC; 0xDD; 0xEE; 0xFF]
   ∧ ¬ (0xAA = 255 ∧ 0xBB = 254) ∧ ¬ (0xBB = 255 ∧ 0xCC = 254)
   ∧ ¬ (0xDD = 255 ∧ 0xEE = 254))
  ∧ eui64_to_mac "2001:db8:1::a8bb:ccff:fedd:eeff"
    = Ok (render [0xAA; 0xBB; 0xCC; 0xDD; 0xEE; 0xFF]).
Proof.
  assert (H1 : Forall octet [0xAA; 0xBB; 0xCC; 0xDD; 0xEE; 0xFF])
    by (repeat constructor; unfold octet; lia).
  assert (H2 : IPAddress "2001:db8:1::a8bb:ccff:fedd:eeff"
               = Some 0x20010db800010000a8bbccfffeddeeff) by (vm_compute; reflexivity).
  assert (H3 : Z.land 0x20010db800010000a8bbccfffeddeeff 0xFFFFFFFFFFFFFFFF
               = modified_eui64 [0xAA; 0xBB; 0xCC; 0xDD; 0xEE; 0xFF])
    by (vm_compute; reflexivity).
  assert (H4 : ¬ (0xAA = 255 ∧ 0xBB = 254)) by lia.
  assert (H5 : ¬ (0xBB = 255 ∧ 0xCC = 254)) by lia.
  assert (H6 : ¬ (0xDD = 255 ∧ 0xEE = 254)) by lia.
  split; [by repeat split|].
  exact (eui64_to_mac_roundtrip _ _ _ _ _ _ _ _ H1 H2 H3 H4 H5 H6).
Defined.

Lemma EUI_detect_raise (modules : list version) (addr : string) (e : exn) :
  EUI_detect modules addr = Raise e → e = AddrFormatError.
Proof.
  induction modules as [|v modules IH]; simpl; [by intros [= <-]|].
  destruct (str_to_int v addr); [done|].
  destruct (Py.int addr) as [i|]; [|done].
  by destruct ((0 <=? i) && (i <=? max_int v)).
Qed.

(** Up to the call of [replace], whatever the address. *)
Lemma eui64_to_mac_reads (ipv6_addr : string) (ip : Z) :
  IPAddress ipv6_addr = Some ip →
  eui64_to_mac ipv6_addr
  = mac ← EUI_of_str (Py.replace "FF-FE-" "" (render (flipped_words ip)));
    Ok (EUI_str mac).
Proof.
  intros Hip.
  destruct (int_to_words_eight (Z.land ip 0xFFFFFFFFFFFFFFFF))
    as (w0 & w1 & w2 & w3 & w4 & w5 & w6 & w7 & Hwords & Hoct).
  fold (iid_words ip) in Hwords. unfold flipped_words. rewrite Hwords.
  exact (eui64_to_mac_words _ _ _ _ _ _ _ _ _ _ Hip Hwords Hoct).
Qed.



Lemma string_length_app (s t : string) :
  String.length (s +:+ t) = (String.length s + String.length t)%nat.
Proof. induction s as [|c s IH]; [done|]. rewrite app_cons. simpl. by rewrite IH. Qed.

Lemma render_length (ws : list Z) :
  ws ≠ [] → String.length (render ws) = (3 * length ws - 1)%nat.
Proof.
  induction ws as [|a ws IH]; [done|]. intros _.
  destruct ws as [|b ws]; [done|].
  unfold render in *. rewrite fmap_cons, fmap_cons, join_cons, <- fmap_cons.
  rewrite !string_length_app, IH by done. simpl. lia.
Qed.

(** What [eui64_to_mac] returns is always the text of six or of eight
    octets: two upper-case hexadecimal digits for each, separated by
    hyphens, 17 or 23 characters in all. *)
Theorem eui64_to_mac_text (ipv6_addr text : string) :
  eui64_to_mac ipv6_addr = Ok text →
  ∃ ws : list Z,
    (length ws = 6 ∨ length ws = 8)%nat ∧ Forall octet ws ∧ text = render ws
    ∧ (String.length text = 17 ∨ String.length text = 23)%nat.
Proof.
  intros Hok. destruct (IPAddress ipv6_addr) as [ip|] eqn:Hip.
  2: { unfold eui64_to_mac in Hok. by rewrite Hip in Hok. }
  rewrite (eui64_to_mac_reads _ _ Hip) in Hok.
  destruct (EUI_of_str _) as [[v int_val]|e]; [|done].
  simpl in Hok. injection Hok as <-. rewrite EUI_str_render.
  exists (int_to_words int_val 8 (num_words v)).
  assert (length (int_to_words int_val 8 (num_words v)) = num_words v) as Hlen.
  { unfold int_to_words. rewrite int_to_words_go_length. simpl. lia. }
  split; [rewrite Hlen; destruct v; auto|].
  split; [apply int_to_words_go_octets; constructor|].
  split; [done|].
  rewrite render_length, Hlen; [destruct v; simpl; auto|].
  intros Hnil. rewrite Hnil in Hlen. by destruct v.
Qed.

Lemma eui64_to_mac_text_witness :
  eui64_to_mac "2001:db8:1::a8bb:ccff:fedd:eeff" = Ok "AA-BB-CC-DD-EE-FF"
  ∧ ∃ ws : list Z,
      (length ws = 6 ∨ length ws = 8)%nat ∧ Forall octet ws
      ∧ "AA-BB-CC-DD-EE-FF" = render ws
      ∧ (String.length "AA-BB-CC-DD-EE-FF" = 17
         ∨ String.length "AA-BB-CC-DD-EE-FF" = 23)%nat.
Proof.
  assert (H : eui64_to_mac "2001:db8:1::a8bb:ccff:fedd:eeff" = Ok "AA-BB-CC-DD-EE-FF")
    by (vm_compute; reflexivity).
  split; [exact H|]. exact (eui64_to_mac_text _ _ H).
Defined.

End codec_results.

(** ** The capture and the commands built from it *)

Section capture.
Import NMtcpdump NMdhcpserver.

Lemma src_addrs_of_from (pcap : list (option string)) (acc : gset string) (a : string) :
  a ∈ foldl (λ src_addrs pkt,
               match pkt with
               | Some src => {[src]} ∪ src_addrs
               | None => src_addrs
               end) acc pcap
  ↔ a ∈ acc ∨ Some a ∈ pcap.
Proof.
  revert acc. induction pcap as [|pkt pcap IH]; intros acc; simpl.
  - rewrite elem_of_nil. tauto.
  - rewrite IH, elem_of_cons. destruct pkt as [src|].
    + rewrite elem_of_union, elem_of_singleton. intuition congruence.
    + intuition congruence.
Qed.

Lemma elem_of_src_addrs_of (pcap : list (option string)) (a : string) :
  a ∈ src_addrs_of pcap ↔ Some a ∈ pcap.
Proof.
  unfold src_addrs_of. rewrite src_addrs_of_from, elem_of_empty. tauto.
Qed.

(** The result of [extract_mac_addresses] depends on the capture only
    through the set of the IPv6 source addresses of its packets: two captures
    with the same sources, whatever the order and the number of their packets
    and whatever the order in which each set is iterated, give the same
    result. *)
Theorem extract_mac_addresses_capture (pcap1 pcap2 : list (option string))
    (order1 order2 : list string) :
  (∀ a, Some a ∈ pcap1 ↔ Some a ∈ pcap2) →
  NoDup order1 → (∀ a, a ∈ order1 ↔ a ∈ src_addrs_of pcap1) →
  NoDup order2 → (∀ a, a ∈ order2 ↔ a ∈ src_addrs_of pcap2) →
  extract_mac_addresses order1 = extract_mac_addresses order2.
Proof.
  intros Hsame Hnd1 Hset1 Hnd2 Hset2.
  assert (order1 ≡ₚ order2) as Hperm.
  { apply NoDup_Permutation; [done..|]. intros a.
    by rewrite Hset1, Hset2, !elem_of_src_addrs_of. }
  unfold extract_mac_addresses, select_and_name.
  fold (selected "2001:db8:1:" order1) (selected "2001:db8:1:" order2).
  by rewrite (selected_order _ _ _ Hperm).
Qed.

Lemma extract_mac_addresses_capture_witness :
  let a := "2001:db8:1::a8bb:ccff:fedd:eeff" in
  let b := "2001:db8:1::211:22ff:fe33:4455" in
  let pcap1 := [Some a; None; Some b; Some a] in
  let pcap2 := [Some b; Some a] in
  ((∀ x, Some x ∈ pcap1 ↔ Some x ∈ pcap2)
   ∧ NoDup [a; b] ∧ (∀ x, x ∈ [a; b] ↔ x ∈ src_addrs_of pcap1)
   ∧ NoDup [b; a] ∧ (∀ x, x ∈ [b; a] ↔ x ∈ src_addrs_of pcap2))
  ∧ extract_mac_addresses [a; b] = extract_mac_addresses [b; a].
Proof.
  intros a b pcap1 pcap2.
  assert (H0 : ∀ x, Some x ∈ pcap1 ↔ Some x ∈ pcap2).
  { intros x. unfold pcap1, pcap2. rewrite !elem_of_cons, !elem_of_nil. intuition congruence. }
  assert (H1 : NoDup [a; b]) by (apply (bool_decide_unpack _); vm_compute; exact I).
  assert (H2 : ∀ x, x ∈ [a; b] ↔ x ∈ src_addrs_of pcap1).
  { intros x. rewrite elem_of_src_addrs_of. unfold pcap1.
    rewrite !elem_of_cons, !elem_of_nil. intuition congruence. }
  assert (H3 : NoDup [b; a]) by (apply (bool_decide_unpack _); vm_compute; exact I).
  assert (H4 : ∀ x, x ∈ [b; a] ↔ x ∈ src_addrs_of pcap2).
  { intros x. rewrite elem_of_src_addrs_of. unfold pcap2.
    rewrite !elem_of_cons, !elem_of_nil. intuition congruence. }
  split; [exact (conj H0 (conj H1 (conj H2 (conj H3 H4))))|].
  exact (extract_mac_addresses_capture pcap1 pcap2 [a; b] [b; a] H0 H1 H2 H3 H4).
Defined.

(** The commands for the DHCP server can be built from the dictionary of
    [extract_mac_addresses] exactly when at least two source addresses carry
    the prefix; with fewer, [mac_addresses['R3-F0/0']] (or already
    [mac_addresses['R2-F0/0']]) is a [KeyError]. When they are built, the two
    [hardware-address] lines carry what [eui64_to_mac] gives for the first
    and the second selected address. *)
Theorem dhcp_commands_of_capture (src_addrs : list string)
    (macs ips : gmap string string) :
  extract_mac_addresses src_addrs = Ok (macs, ips) →
  (is_Some (dhcp_commands macs)
   ↔ (2 ≤ length (filter (λ addr, Py.contains "2001:db8:1:" addr = true) src_addrs))%nat)
  ∧ (∀ commands, dhcp_commands macs = Some commands →
       ∃ a b mac_a mac_b,
         selected "2001:db8:1:" src_addrs !! 0%nat = Some a
         ∧ selected "2001:db8:1:" src_addrs !! 1%nat = Some b
         ∧ eui64_to_mac a = Ok mac_a ∧ eui64_to_mac b = Ok mac_b
         ∧ commands !! 5%nat = Some ("hardware-address " +:+ mac_a +:+ " ieee802")
         ∧ commands !! 10%nat = Some ("hardware-address " +:+ mac_b +:+ " ieee802")
         ∧ length commands = 18%nat).
Proof.
  intros Hassign. unfold extract_mac_addresses, select_and_name in Hassign.
  fold (selected "2001:db8:1:" src_addrs) in Hassign.
  assert (NoDup names) as Hnd by (apply (bool_decide_unpack _); vm_compute; exact I).
  destruct (assign_lookup _ _ _ _ _ _ Hnd Hassign) as [Hin _].
  pose proof (Hin 0%nat "R2-F0/0" eq_refl) as H0.
  pose proof (Hin 1%nat "R3-F0/0" eq_refl) as H1.
  rewrite <- (Permutation_length (selected_perm "2001:db8:1:" src_addrs)).
  unfold dhcp_commands.
  destruct (selected "2001:db8:1:" src_addrs) as [|a [|b sel]]; simpl in H0, H1.
  - destruct H0 as [_ ->]. rewrite lookup_empty. simpl.
    split; [|done]. split; [by intros []|lia].
  - destruct H1 as [_ ->]. destruct H0 as [_ (mac_a & _ & ->)].
    rewrite lookup_empty. simpl. split; [|done]. split; [by intros []|lia].
  - destruct H0 as [_ (mac_a & Ha & ->)], H1 as [_ (mac_b & Hb & ->)]. simpl.
    split; [split; [lia|eauto]|].
    intros commands [= <-]. by exists a, b, mac_a, mac_b.
Qed.

Lemma dhcp_commands_of_capture_witness :
  let src_addrs :=
    ["fe80::1"; "2001:db8:1::211:22ff:fe33:4455"; "2001:db8:1::a8bb:ccff:fedd:eeff"] in
  ∃ macs ips,
    extract_mac_addresses src_addrs = Ok (macs, ips)
    ∧ (is_Some (dhcp_commands macs)
       ↔ (2 ≤ length (filter (λ addr, Py.contains "2001:db8:1:" addr = true) src_addrs))%nat)
    ∧ (∀ commands, dhcp_commands macs = Some commands →
         ∃ a b mac_a mac_b,
           selected "2001:db8:1:" src_addrs !! 0%nat = Some a
           ∧ selected "2001:db8:1:" src_addrs !! 1%nat = Some b
           ∧ eui64_to_mac a = Ok mac_a ∧ eui64_to_mac b = Ok mac_b
           ∧ commands !! 5%nat = Some ("hardware-address " +:+ mac_a +:+ " ieee802")
           ∧ commands !! 10%nat = Some ("hardware-address " +:+ mac_b +:+ " ieee802")
           ∧ length commands = 18%nat).
Proof.
  intros src_addrs.
  assert (selected "2001:db8:1:" src_addrs
          = ["2001:db8:1::211:22ff:fe33:4455"; "2001:db8:1::a8bb:ccff:fedd:eeff"])
    as Hsel by (vm_compute; reflexivity).
  destruct (assign_returns names (selected "2001:db8:1:" src_addrs) ∅ ∅)
    as (macs & ips & Hex).
  { rewrite Hsel. intros addr Hin. simpl in Hin.
    apply elem_of_cons in Hin as [->|Hin]; [eexists; vm_compute; reflexivity|].
    apply elem_of_cons in Hin as [->|Hin]; [eexists; vm_compute; reflexivity|].
    by apply elem_of_nil in Hin. }
  exists macs, ips. split; [exact Hex|].
  exact (dhcp_commands_of_capture src_addrs macs ips Hex).
Defined.

End capture.

(** ** Reading the output of the devices (NMdhcpserver.py) *)

Section device_output.
Import NMdhcpserver.

Lemma all_chars_app (P : ascii → bool) (s t : string) :
  all_chars P (s +:+ t) = all_chars P s && all_chars P t.
Proof.
  induction s as [|c s IH]; [done|].
  rewrite app_cons. simpl. by rewrite IH, andb_assoc.
Qed.

Lemma lower_app (s t : string) : Py.lower (s +:+ t) = Py.lower s +:+ Py.lower t.
Proof. induction s as [|c s IH]; [done|]. rewrite app_cons. simpl. by rewrite IH. Qed.

Lemma startswith_app (p x : string) : Py.startswith p (p +:+ x) = true.
Proof.
  induction p as [|c p IH]; [apply startswith_nil|].
  by rewrite app_cons, startswith_cons, Ascii.eqb_refl, IH.
Qed.

Lemma startswith_refl (p : string) : Py.startswith p p = true.
Proof.
  induction p as [|c p IH]; [done|]. by rewrite startswith_cons, Ascii.eqb_refl, IH.
Qed.

Lemma contains_here (sub s : string) : Py.startswith sub s = true → Py.contains sub s = true.
Proof. intros H. destruct s; simpl; by rewrite H. Qed.

Lemma contains_cons (sub : string) (c : ascii) (s : string) :
  Py.contains sub s = true → Py.contains sub (String c s) = true.
Proof. intros H. simpl. rewrite H. apply orb_true_r. Qed.

Lemma take_while_all (P : ascii → bool) (s : string) :
  all_chars P (take_while P s) = true.
Proof. induction s as [|c s IH]; [done|]. simpl. destruct (P c) eqn:Hc; simpl; [by rewrite Hc|done]. Qed.

Lemma take_while_prefix (P : ascii → bool) (s : string) :
  Py.startswith (take_while P s) s = true.
Proof.
  induction s as [|c s IH]; [done|]. simpl. destruct (P c); [|done].
  by rewrite startswith_cons, Ascii.eqb_refl, IH.
Qed.

Lemma take_while_stop (P : ascii → bool) (t : string) (c : ascii) (rest : string) :
  all_chars P t = true → P c = false → take_while P (t +:+ String c rest) = t.
Proof.
  intros Ht Hc. induction t as [|a t IH]; simpl in *.
  - by rewrite Hc.
  - apply andb_true_iff in Ht as [-> Ht]. by rewrite IH.
Qed.

Lemma startswith_app_l (p t s : string) :
  Py.startswith (p +:+ t) s = true → Py.startswith p s = true.
Proof.
  revert s. induction p as [|a p IH]; intros s H; [apply startswith_nil|].
  destruct s as [|b s]; [done|].
  rewrite app_cons, startswith_cons in H. apply andb_true_iff in H as [Hab H].
  rewrite startswith_cons, Hab. simpl. by apply IH.
Qed.

Lemma contains_app_l (p t s : string) :
  Py.contains (p +:+ t) s = true → Py.contains p s = true.
Proof.
  induction s as [|c s IH]; simpl.
  - rewrite !orb_false_r. apply startswith_app_l.
  - intros [H|H]%orb_true_iff.
    + by rewrite (startswith_app_l _ _ _ H).
    + rewrite (IH H). apply orb_true_r.
Qed.

(** The literal of the pattern, [p], before the characters of the class. *)
Lemma startswith_literal_then (p t s : string) :
  Py.startswith p s = true →
  Py.startswith t (Py.str_drop (String.length p) s) = true →
  Py.startswith (p +:+ t) s = true.
Proof.
  revert s. induction p as [|c p IH]; intros s Hp Ht; [done|].
  destruct s as [|c' s]; [done|].
  rewrite startswith_cons in Hp. apply andb_true_iff in Hp as [Hc Hp].
  rewrite app_cons, startswith_cons, Hc. simpl. by apply IH.
Qed.

Lemma search_global_Some (line group : string) :
  search_global line = Some group →
  ∃ tail, group = "2001:db8:1:" +:+ tail ∧ tail ≠ ""
          ∧ all_chars is_addr_char tail = true
          ∧ Py.contains group line = true.
Proof.
  induction line as [|c line IH]; [done|].
  intros Hsearch.
  assert (search_global line = Some group → Py.contains group (String c line) = true
          ∧ ∃ tail, group = "2001:db8:1:" +:+ tail ∧ tail ≠ ""
                    ∧ all_chars is_addr_char tail = true) as Hlater.
  { intros H. destruct (IH H) as (tail & ? & ? & ? & Hcont).
    split; [by apply contains_cons|by exists tail]. }
  change (search_global (String c line))
    with (if Py.startswith "2001:db8:1:" (String c line)
          then match take_while is_addr_char (Py.str_drop 11 (String c line)) with
               | "" => search_global line
               | tail => Some ("2001:db8:1:" +:+ tail)
               end
          else search_global line) in Hsearch.
  destruct (Py.startswith "2001:db8:1:" (String c line)) eqn:Hstart.
  - pose proof (take_while_all is_addr_char (Py.str_drop 11 (String c line))) as Hall.
    pose proof (take_while_prefix is_addr_char (Py.str_drop 11 (String c line))) as Hpre.
    destruct (take_while is_addr_char (Py.str_drop 11 (String c line)))
      as [|a tail] eqn:Htail.
    + destruct (Hlater Hsearch) as [? (tail & ? & ? & ?)]. by exists tail.
    + injection Hsearch as <-. exists (String a tail).
      split; [done|]. split; [done|]. split; [done|].
      apply contains_here. by apply startswith_literal_then.
  - destruct (Hlater Hsearch) as [? (tail & ? & ? & ?)]. by exists tail.
Qed.

Lemma neighbor_lines_Ok (lines : list string) (group : string) :
  neighbor_lines lines = Ok group →
  ∃ line, line ∈ lines ∧ search_global (Py.lower line) = Some group.
Proof.
  induction lines as [|line lines IH]; [done|]. simpl.
  destruct (Py.contains "2001:db8:1:" (Py.lower line)).
  - destruct (search_global (Py.lower line)) as [g|] eqn:Hg.
    + intros [= <-]. exists line. split; [by left|done].
    + intros H. destruct (IH H) as (l & ? & ?). exists l. split; [by right|done].
  - intros H. destruct (IH H) as (l & ? & ?). exists l. split; [by right|done].
Qed.

Lemma neighbor_lines_Raise (lines : list string) (e : exn) :
  neighbor_lines lines = Raise e →
  e = ValueError
  ∧ ∀ line, line ∈ lines →
      Py.contains "2001:db8:1:" (Py.lower line) = false
      ∨ search_global (Py.lower line) = None.
Proof.
  induction lines as [|line lines IH]; simpl.
  - intros [= <-]. split; [done|]. intros line Hin. by apply elem_of_nil in Hin.
  - destruct (Py.contains "2001:db8:1:" (Py.lower line)) eqn:Hcont.
    + destruct (search_global (Py.lower line)) as [g|] eqn:Hg; [done|].
      intros H. destruct (IH H) as [-> Hrest]. split; [done|].
      intros l [->|Hin]%elem_of_cons; [by right|by apply Hrest].
    + intros H. destruct (IH H) as [-> Hrest]. split; [done|].
      intros l [->|Hin]%elem_of_cons; [by left|by apply Hrest].
Qed.

(** The address read from the neighbour table is never arbitrary text: it
    is the literal [2001:db8:1:] followed by at least one character, all of
    them among [0-9a-f:], and it stands in one of the lines of the output
    once put in lower case. The only exception is [ValueError], raised when
    no line holds such an address. *)
Theorem r5_ipv6_of_output_group (output : string) :
  (∀ group, r5_ipv6_of_output output = Ok group →
     ∃ tail line,
       group = "2001:db8:1:" +:+ tail ∧ tail ≠ ""
       ∧ all_chars is_addr_char tail = true
       ∧ line ∈ Py.split "010" output
       ∧ Py.contains group (Py.lower line) = true)
  ∧ (∀ e, r5_ipv6_of_output output = Raise e →
       e = ValueError
       ∧ ∀ line, line ∈ Py.split "010" output →
           search_global (Py.lower line) = None).
Proof.
  unfold r5_ipv6_of_output. split.
  - intros group Hok. apply neighbor_lines_Ok in Hok as (line & Hin & Hsearch).
    apply search_global_Some in Hsearch as (tail & ? & ? & ? & ?).
    by exists tail, line.
  - intros e Hraise. apply neighbor_lines_Raise in Hraise as [-> Hlines].
    split; [done|]. intros line Hin. destruct (Hlines line Hin) as [Hno|]; [|done].
    destruct (search_global (Py.lower line)) as [g|] eqn:Hg; [|done].
    apply search_global_Some in Hg as (tail & -> & _ & _ & Hcont).
    apply contains_app_l in Hcont. congruence.
Qed.

Lemma r5_ipv6_of_output_group_witness :
  let good := "FE80::1 0 ca05.0e2c.0008 REACH Fa0/0" +:+ String "010"
              "2001:DB8:1::C805:EFF:FE2C:8 0 ca05.0e2c.0008 REACH Fa0/0" in
  let bad := "FE80::1 0 ca05.0e2c.0008 REACH Fa0/0" in
  (r5_ipv6_of_output good = Ok "2001:db8:1::c805:eff:fe2c:8"
   ∧ ∃ tail line,
       "2001:db8:1::c805:eff:fe2c:8" = "2001:db8:1:" +:+ tail ∧ tail ≠ ""
       ∧ all_chars is_addr_char tail = true
       ∧ line ∈ Py.split "010" good
       ∧ Py.contains "2001:db8:1::c805:eff:fe2c:8" (Py.lower line) = true)
  ∧ (r5_ipv6_of_output bad = Raise ValueError
     ∧ ValueError = ValueError
     ∧ ∀ line, line ∈ Py.split "010" bad → search_global (Py.lower line) = None).
Proof.
  intros good bad. split.
  - assert (H : r5_ipv6_of_output good = Ok "2001:db8:1::c805:eff:fe2c:8")
      by (vm_compute; reflexivity).
    split; [exact H|]. exact (proj1 (r5_ipv6_of_output_group good) _ H).
  - assert (H : r5_ipv6_of_output bad = Raise ValueError) by (vm_compute; reflexivity).
    split; [exact H|]. exact (proj2 (r5_ipv6_of_output_group bad) _ H).
Defined.

Lemma str_drop_app (p x : string) : Py.str_drop (String.length p) (p +:+ x) = x.
Proof. induction p as [|c p IH]; [by destruct x|]. by rewrite app_cons. Qed.

Lemma search_global_head (tail rest : string) :
  tail ≠ "" → all_chars is_addr_char tail = true →
  search_global ("2001:db8:1:" +:+ tail +:+ String " " rest)
  = Some ("2001:db8:1:" +:+ tail).
Proof.
  intros Hne Hall.
  change (search_global ("2001:db8:1:" +:+ tail +:+ String " " rest))
    with (if Py.startswith "2001:db8:1:" ("2001:db8:1:" +:+ tail +:+ String " " rest)
          then match take_while is_addr_char
                       (Py.str_drop (String.length "2001:db8:1:")
                          ("2001:db8:1:" +:+ tail +:+ String " " rest)) with
               | "" => search_global ("001:db8:1:" +:+ tail +:+ String " " rest)
               | t => Some ("2001:db8:1:" +:+ t)
               end
          else search_global ("001:db8:1:" +:+ tail +:+ String " " rest)).
  rewrite startswith_app, str_drop_app, take_while_stop by done.
  by destruct tail.
Qed.

(** The first line that holds the prefix decides. When the lines before it
    do not hold the prefix in any letter case and the line begins with an
    address that reads [2001:db8:1:] and then characters among [0-9a-f:] once
    in lower case, followed by a space, that address in lower case is
    returned, whatever the lines after it. *)
Theorem r5_ipv6_of_output_first (output : string) (skipped later : list string)
    (addr rest tail : string) :
  Py.split "010" output = (skipped ++ (addr +:+ String " " rest) :: later)%list →
  Forall (λ line, Py.contains "2001:db8:1:" (Py.lower line) = false) skipped →
  Py.lower addr = "2001:db8:1:" +:+ tail →
  tail ≠ "" → all_chars is_addr_char tail = true →
  r5_ipv6_of_output output = Ok (Py.lower addr).
Proof.
  intros Hlines Hskipped Haddr Hne Hall. unfold r5_ipv6_of_output. rewrite Hlines.
  clear Hlines. induction Hskipped as [|line skipped Hline _ IH]; simpl.
  - rewrite lower_app, Haddr.
    change (Py.lower (String " " rest)) with (String " " (Py.lower rest)).
    replace (("2001:db8:1:" +:+ tail) +:+ String " " (Py.lower rest))
      with ("2001:db8:1:" +:+ tail +:+ String " " (Py.lower rest)) by reflexivity.
    rewrite contains_here by apply (startswith_app "2001:db8:1:").
    by rewrite search_global_head.
  - by rewrite Hline.
Qed.

Lemma r5_ipv6_of_output_first_witness :
  let header := "IPv6 Address  Age Link-layer Addr State Interface" in
  let local := "FE80::C805:EFF:FE2C:8 0 ca05.0e2c.0008 REACH Fa0/0" in
  let addr := "2001:DB8:1::C805:EFF:FE2C:8" in
  let rest := "0 ca05.0e2c.0008 REACH Fa0/0" in
  let output :=
    header +:+ String "010" (local +:+ String "010" (addr +:+ String " " rest)) in
  (Py.split "010" output = ([header; local] ++ (addr +:+ String " " rest) :: [])%list
   ∧ Forall (λ line, Py.contains "2001:db8:1:" (Py.lower line) = false) [header; local]
   ∧ Py.lower addr = "2001:db8:1:" +:+ ":c805:eff:fe2c:8"
   ∧ ":c805:eff:fe2c:8" ≠ ""
   ∧ all_chars is_addr_char ":c805:eff:fe2c:8" = true)
  ∧ r5_ipv6_of_output output = Ok (Py.lower addr).
Proof.
  intros header local addr rest output.
  assert (H1 : Py.split "010" output
               = ([header; local] ++ (addr +:+ String " " rest) :: [])%list)
    by (vm_compute; reflexivity).
  assert (H2 : Forall (λ line, Py.contains "2001:db8:1:" (Py.lower line) = false)
                 [header; local]) by (repeat constructor).
  assert (H3 : Py.lower addr = "2001:db8:1:" +:+ ":c805:eff:fe2c:8")
    by (vm_compute; reflexivity).
  assert (H4 : ":c805:eff:fe2c:8" ≠ "") by discriminate.
  assert (H5 : all_chars is_addr_char ":c805:eff:fe2c:8" = true) by reflexivity.
  split; [exact (conj H1 (conj H2 (conj H3 (conj H4 H5))))|].
  exact (r5_ipv6_of_output_first output _ _ addr rest _ H1 H2 H3 H4 H5).
Defined.

End device_output.

(** ** The table of DHCP bindings (NMdhcpserver.py) *)

Section bindings.
Import NMdhcpserver.

Lemma pretty_N_go_nonempty (x : N) (s : string) : s ≠ "" → pretty_N_go x s ≠ "".
Proof.
  revert s. induction (N.lt_wf_0 x) as [x _ IH]; intros s Hs.
  destruct (decide (x = 0)%N) as [->|Hx]; [by rewrite pretty_N_go_0|].
  rewrite pretty_N_go_step by lia. apply IH; [apply N.div_lt; lia|done].
Qed.

Lemma pretty_N_nonempty (x : N) : pretty x ≠ "".
Proof.
  unfold pretty, pretty_N. case_decide as Hx; [done|].
  rewrite pretty_N_go_step by lia. by apply pretty_N_go_nonempty.
Qed.

Lemma skip_digits_stop (ds : string) (c : ascii) (rest : string) :
  all_chars Py.is_digit ds = true → Py.is_digit c = false →
  skip_digits (ds +:+ String c rest) = String c rest.
Proof.
  intros Hds Hc. induction ds as [|a ds IH]; simpl in *.
  - by rewrite Hc.
  - apply andb_true_iff in Hds as [-> Hds]. by apply IH.
Qed.

Lemma digits_then_dot (ds rest : string) :
  ds ≠ "" → all_chars Py.is_digit ds = true →
  digits_then (ds +:+ String "." rest) ≫= dot_then = Some rest.
Proof.
  intros Hne Hds. destruct ds as [|a ds]; [done|].
  simpl in Hds. apply andb_true_iff in Hds as [Ha Hds].
  rewrite app_cons. unfold digits_then. rewrite Ha.
  by rewrite skip_digits_stop.
Qed.

Lemma digits_then_end (ds : string) :
  ds ≠ "" → all_chars Py.is_digit ds = true → is_Some (digits_then ds).
Proof.
  intros Hne Hds. destruct ds as [|a ds]; [done|].
  simpl in Hds. apply andb_true_iff in Hds as [Ha Hds].
  unfold digits_then. rewrite Ha. eauto.
Qed.

Lemma dotted_four (a b c d : N) :
  dotted [a; b; c; d]
  = pretty a +:+ String "." (pretty b +:+ String "." (pretty c +:+ String "." (pretty d))).
Proof. reflexivity. Qed.

Lemma match_dotted_quad_dotted (a b c d : N) :
  match_dotted_quad (dotted [a; b; c; d]) = true.
Proof.
  unfold match_dotted_quad, dotted_quad_rest. rewrite dotted_four.
  pose proof (digits_then_dot (pretty a)
    (pretty b +:+ String "." (pretty c +:+ String "." (pretty d)))
    (pretty_N_nonempty a) (pretty_N_digits a)) as Ha.
  pose proof (digits_then_dot (pretty b) (pretty c +:+ String "." (pretty d))
    (pretty_N_nonempty b) (pretty_N_digits b)) as Hb.
  pose proof (digits_then_dot (pretty c) (pretty d)
    (pretty_N_nonempty c) (pretty_N_digits c)) as Hc.
  destruct (digits_then_end (pretty d) (pretty_N_nonempty d) (pretty_N_digits d))
    as [r Hd].
  destruct (digits_then (pretty a +:+ _)) as [s1|]; [|done]. simpl in Ha |- *.
  rewrite Ha. simpl.
  destruct (digits_then (pretty b +:+ _)) as [s2|]; [|done]. simpl in Hb |- *.
  rewrite Hb. simpl.
  destruct (digits_then (pretty c +:+ _)) as [s3|]; [|done]. simpl in Hc |- *.
  rewrite Hc. simpl. by rewrite Hd.
Qed.

Lemma split_ws_space (rest : string) : Py.split_ws (String " " rest) = Py.split_ws rest.
Proof. reflexivity. Qed.

Lemma split_ws_field (tok rest : string) :
  tok ≠ "" → all_chars (λ c, negb (Py.is_space c)) tok = true →
  Py.split_ws (tok +:+ String " " rest) = tok :: Py.split_ws rest.
Proof.
  intros Hne Htok. induction tok as [|c tok IH]; [done|].
  simpl in Htok. apply andb_true_iff in Htok as [Hc Htok].
  apply negb_true_iff in Hc.
  destruct tok as [|c' tok].
  - rewrite app_cons, app_nil_l.
    change (Py.split_ws (String c (String " " rest)))
      with (if Py.is_space c then Py.split_ws (String " " rest)
            else String c "" :: Py.split_ws (String " " rest)).
    by rewrite Hc, split_ws_space.
  - assert (Py.is_space c' = false) as Hc'.
    { simpl in Htok. apply andb_true_iff in Htok as [H _]. by apply negb_true_iff in H. }
    rewrite app_cons.
    change (Py.split_ws (String c (String c' tok +:+ String " " rest)))
      with (if Py.is_space c
            then Py.split_ws (String c' tok +:+ String " " rest)
            else if Py.is_space c'
                 then String c "" :: Py.split_ws (String c' tok +:+ String " " rest)
                 else match Py.split_ws (String c' tok +:+ String " " rest) with
                      | p :: ps => String c p :: ps
                      | [] => [String c ""]
                      end).
    by rewrite Hc, Hc', IH.
Qed.

Lemma digit_not_space (c : ascii) : Py.is_digit c = true → Py.is_space c = false.
Proof.
  unfold Py.is_digit, Py.is_space. generalize (nat_of_ascii c). intros n H.
  apply andb_true_iff in H as [H1%Nat.leb_le H2%Nat.leb_le].
  repeat match goal with
         | |- context [(?a <=? ?b)%nat] => destruct (Nat.leb_spec a b)
         | |- context [(?a =? ?b)%nat] => destruct (Nat.eqb_spec a b)
         end; simpl; try done; lia.
Qed.

Lemma dotted_no_space (l : list N) :
  all_chars (λ c, negb (Py.is_space c)) (dotted l) = true.
Proof.
  assert (∀ x : N, all_chars (λ c, negb (Py.is_space c)) (pretty x) = true) as Hx.
  { intros x. apply (all_chars_impl Py.is_digit); [|apply pretty_N_digits].
    intros c Hc. by rewrite digit_not_space. }
  unfold dotted. induction l as [|x l IH]; [done|].
  destruct l as [|y l]; [apply Hx|].
  rewrite !fmap_cons, join_cons, <- fmap_cons, !all_chars_app, Hx, IH. done.
Qed.

Lemma dotted_nonempty (x : N) (l : list N) : dotted (x :: l) ≠ "".
Proof.
  unfold dotted. pose proof (pretty_N_nonempty x) as Hx.
  destruct l as [|y l]; [done|].
  rewrite !fmap_cons, join_cons. by destruct (pretty x).
Qed.

Lemma binding_lines_app (lines1 lines2 client_ips : list string) :
  binding_lines (lines1 ++ lines2) client_ips
  = binding_lines lines2 (binding_lines lines1 client_ips).
Proof.
  revert client_ips. induction lines1 as [|line lines1 IH]; intros client_ips; [done|].
  simpl. destruct (Py.split_ws line) as [|ip [|field fields]]; try apply IH.
  destruct (match_dotted_quad ip); apply IH.
Qed.

Lemma binding_lines_passed (lines client_ips : list string) :
  Forall not_binding lines → binding_lines lines client_ips = client_ips.
Proof.
  intros Hlines. induction Hlines as [|line lines Hline _ IH]; [done|].
  simpl. unfold not_binding in Hline.
  destruct (Py.split_ws line) as [|ip [|field fields]]; try apply IH.
  by rewrite Hline.
Qed.

Lemma binding_lines_rows (rows : list ((N * N * N * N) * string))
    (client_ips : list string) :
  Forall (λ row, Py.split_ws row.2 ≠ []) rows →
  binding_lines (binding_text <$> rows) client_ips
  = (client_ips
     ++ ((λ row, let '(a, b, c, d) := row.1 in dotted [a; b; c; d]) <$> rows))%list.
Proof.
  intros Hrows. revert client_ips.
  induction Hrows as [|[[[[a b] c] d] fields] rows Hfields _ IH]; intros client_ips.
  { by rewrite List.app_nil_r. }
  rewrite !fmap_cons. simpl in Hfields.
  change (binding_lines (binding_text (a, b, c, d, fields) :: (binding_text <$> rows))
            client_ips)
    with (match Py.split_ws (dotted [a; b; c; d] +:+ String " " fields) with
          | ip :: _ :: _ =>
              if match_dotted_quad ip
              then binding_lines (binding_text <$> rows) (client_ips ++ [ip])%list
              else binding_lines (binding_text <$> rows) client_ips
          | _ => binding_lines (binding_text <$> rows) client_ips
          end).
  rewrite split_ws_field by (apply dotted_nonempty || apply dotted_no_space).
  destruct (Py.split_ws fields) as [|field others]; [done|].
  rewrite match_dotted_quad_dotted, IH. by rewrite <- List.app_assoc.
Qed.

(** Read from a table of bindings, the addresses come back as they stand and
    in their order: when the lines of the output are some lines that are not
    bindings, then one line for each binding (its address, a space, at least
    one more field), then again lines that are not bindings, the list
    returned is that of the addresses. *)
Theorem client_ips_of_table (output : string) (before after : list string)
    (rows : list ((N * N * N * N) * string)) :
  Py.split "010" output = (before ++ (binding_text <$> rows) ++ after)%list →
  Forall not_binding before → Forall not_binding after →
  Forall (λ row, Py.split_ws row.2 ≠ []) rows →
  client_ips_of_output output
  = (λ row, let '(a, b, c, d) := row.1 in dotted [a; b; c; d]) <$> rows.
Proof.
  intros Hlines Hbefore Hafter Hrows. unfold client_ips_of_output.
  rewrite Hlines, !binding_lines_app.
  rewrite (binding_lines_passed before), binding_lines_rows by done.
  by rewrite binding_lines_passed.
Qed.

Lemma client_ips_of_table_witness :
  let before :=
    ["Bindings from all pools not associated with VRF:";
     "IP address          Client-ID/              Lease expiration        Type"] in
  let rows :=
    [((198, 51, 101, 2)%N, "       0100.1122.3344.55       Infinite   Manual");
     ((198, 51, 101, 6)%N, "       ca04.0e2c.0008          Mar 02 2024 12:00 AM    Automatic")] in
  let output :=
    Py.join (String "010" "") (before ++ (binding_text <$> rows) ++ [""])%list in
  (Py.split "010" output = (before ++ (binding_text <$> rows) ++ [""])%list
   ∧ Forall not_binding before ∧ Forall not_binding [""]
   ∧ Forall (λ row, Py.split_ws row.2 ≠ []) rows)
  ∧ client_ips_of_output output
    = (λ row, let '(a, b, c, d) := row.1 in dotted [a; b; c; d]) <$> rows.
Proof.
  intros before rows output.
  assert (H1 : Py.split "010" output = (before ++ (binding_text <$> rows) ++ [""])%list)
    by (vm_compute; reflexivity).
  assert (H2 : Forall not_binding before)
    by (repeat constructor; vm_compute; reflexivity).
  assert (H3 : Forall not_binding [""]) by (repeat constructor).
  assert (H4 : Forall (λ row, Py.split_ws row.2 ≠ []) rows)
    by (repeat constructor; vm_compute; discriminate).
  split; [exact (conj H1 (conj H2 (conj H3 H4)))|].
  exact (client_ips_of_table output before [""] rows H1 H2 H3 H4).
Defined.

Lemma binding_lines_sound (lines client_ips : list string) (ip : string) :
  ip ∈ binding_lines lines client_ips →
  ip ∈ client_ips
  ∨ (match_dotted_quad ip = true
     ∧ ∃ line field fields,
         line ∈ lines ∧ Py.split_ws line = ip :: field :: fields).
Proof.
  revert client_ips. induction lines as [|line lines IH]; intros client_ips; [by left|].
  assert (∀ acc, ip ∈ binding_lines lines acc →
            ip ∈ acc
            ∨ (match_dotted_quad ip = true
               ∧ ∃ l field fields,
                   l ∈ line :: lines ∧ Py.split_ws l = ip :: field :: fields)) as IH'.
  { intros acc Hin. destruct (IH acc Hin) as [?|(? & l & f & fs & ? & ?)]; [by left|].
    right. split; [done|]. exists l, f, fs. split; [by right|done]. }
  simpl. destruct (Py.split_ws line) as [|first [|field fields]] eqn:Hline;
    try apply IH'.
  destruct (match_dotted_quad first) eqn:Hmatch; [|apply IH'].
  intros Hin. destruct (IH' _ Hin) as [[Hacc|Hnew]%elem_of_app|Hlater];
    [by left| |by right].
  apply list_elem_of_singleton in Hnew as ->.
  right. split; [done|]. exists line, field, fields. split; [by left|done].
Qed.

(** Whatever the output of the device, every element of the list returned
    is the first field of one of its lines, a line that has a second field,
    and begins with a dotted quad; and the list has at most one element for
    each line. *)
Theorem client_ips_of_output_sound (output : string) :
  (∀ ip, ip ∈ client_ips_of_output output →
     match_dotted_quad ip = true
     ∧ ∃ line field fields,
         line ∈ Py.split "010" output ∧ Py.split_ws line = ip :: field :: fields)
  ∧ (length (client_ips_of_output output) ≤ length (Py.split "010" output))%nat.
Proof.
  unfold client_ips_of_output. split.
  - intros ip Hin. apply binding_lines_sound in Hin as [Hin|Hin]; [|done].
    by apply elem_of_nil in Hin.
  - assert (∀ lines acc, (length (binding_lines lines acc) ≤ length acc + length lines)%nat)
      as Hlen.
    { induction lines as [|line lines IH]; intros acc; simpl; [lia|].
      destruct (Py.split_ws line) as [|first [|field fields]];
        try (specialize (IH acc); lia).
      destruct (match_dotted_quad first); [|specialize (IH acc); lia].
      specialize (IH (acc ++ [first])%list). rewrite length_app in IH. simpl in IH. lia. }
    apply (Hlen _ []).
Qed.

Lemma client_ips_of_output_sound_witness :
  let output :=
    Py.join (String "010" "")
      ["IP address      Client-ID     Lease expiration   Type";
       "198.51.101.2    0100.1122     Infinite           Manual"; ""] in
  "198.51.101.2" ∈ client_ips_of_output output
  ∧ match_dotted_quad "198.51.101.2" = true
  ∧ ∃ line field fields,
      line ∈ Py.split "010" output
      ∧ Py.split_ws line = "198.51.101.2" :: field :: fields.
Proof.
  intros output.
  assert (H : "198.51.101.2" ∈ client_ips_of_output output)
    by (vm_compute; apply list_elem_of_here).
  split; [exact H|]. exact (proj1 (client_ips_of_output_sound output) _ H).
Defined.

End bindings.

(** ** The walks of NMsnmp.py *)

Section walks.
Import NMsnmp.

Lemma ipv4_rows_acc (results : list SNMPVariable) (acc : list string) :
  ipv4_rows results acc = (acc ++ ipv4_rows results [])%list.
Proof.
  revert acc. induction results as [|var results IH]; intros acc; simpl.
  - by rewrite List.app_nil_r.
  - destruct (ipv4_row (oid var)) as [[a|]|e]; [|apply IH|by rewrite List.app_nil_r].
    rewrite (IH (acc ++ [a])%list), (IH [a]). by rewrite <- List.app_assoc.
Qed.

Lemma fetch_ipv4_addresses_rows (results : list SNMPVariable) :
  fetch_ipv4_addresses (Some results) = ipv4_rows results [].
Proof. destruct results; reflexivity. Qed.

Lemma ipv4_row_dotted (front : list N) (a b c d : N) :
  ipv4_row (dotted (front ++ [a; b; c; d])) = Ok (Some (dotted [a; b; c; d] +:+ "/24")).
Proof.
  unfold ipv4_row. rewrite split_dotted by (by destruct front).
  rewrite fmap_app, length_app, length_fmap. simpl length.
  replace (4 <=? length front + 4)%nat with true by (symmetry; apply Nat.leb_le; lia).
  rewrite last_n_app by done. reflexivity.
Qed.

(** A walk of the IPv4 address table gives one address for each binding, in
    the order of the walk: the last four components of its identifier in
    dotted form, followed by ["/24"]. The values of the bindings are not
    read. *)
Theorem fetch_ipv4_addresses_walk (rows : list (list N * (N * N * N * N) * string)) :
  fetch_ipv4_addresses (Some (ipv4_binding <$> rows))
  = (λ row, let '(a, b, c, d) := row.1.2 in dotted [a; b; c; d] +:+ "/24") <$> rows.
Proof.
  rewrite fetch_ipv4_addresses_rows.
  induction rows as [|[[front [[[a b] c] d]] val] rows IH]; [done|].
  rewrite !fmap_cons. simpl ipv4_binding. simpl ipv4_rows.
  rewrite ipv4_row_dotted. rewrite ipv4_rows_acc, IH. reflexivity.
Qed.

Lemma ipv6_rows_cons (var : SNMPVariable) (results : list SNMPVariable)
    (acc : list string) :
  ipv6_rows (var :: results) acc
  = match ipv6_row (oid var) with
    | Ok (Some a) => ipv6_rows results (acc ++ [a])%list
    | Ok None | Raise _ => ipv6_rows results acc
    end.
Proof. reflexivity. Qed.

Lemma ipv6_rows_acc (results : list SNMPVariable) (acc : list string) :
  ipv6_rows results acc = (acc ++ ipv6_rows results [])%list.
Proof.
  revert acc. induction results as [|var results IH]; intros acc; simpl.
  - by rewrite List.app_nil_r.
  - destruct (ipv6_row (oid var)) as [[a|]|e]; [|apply IH..].
    rewrite (IH (acc ++ [a])%list), (IH [a]). by rewrite <- List.app_assoc.
Qed.

Lemma ipv6_rows_app (results1 results2 : list SNMPVariable) :
  ipv6_rows (results1 ++ results2)%list []
  = (ipv6_rows results1 [] ++ ipv6_rows results2 [])%list.
Proof.
  induction results1 as [|var results1 IH]; [done|]. simpl.
  destruct (ipv6_row (oid var)) as [[a|]|e]; [|apply IH..].
  rewrite (ipv6_rows_acc _ [a]), (ipv6_rows_acc results1 [a]), IH.
  by rewrite <- List.app_assoc.
Qed.

Lemma fetch_ipv6_addresses_rows (results : list SNMPVariable) :
  fetch_ipv6_addresses (Some results) = ipv6_rows results [].
Proof. destruct results; reflexivity. Qed.

Lemma mapM_raises {A B} (f : A → result B) (l : list A) (x : A) (e : exn) :
  x ∈ l → f x = Raise e → ∃ e', mapM f l = Raise e'.
Proof.
  intros Hin Hx. induction l as [|y l IH]; [by apply elem_of_nil in Hin|].
  rewrite mapM_cons. apply elem_of_cons in Hin as [<-|Hin].
  - rewrite Hx. by exists e.
  - destruct (f y) as [b|e0]; [|by exists e0]. simpl.
    destruct (IH Hin) as [e' ->]. by exists e'.
Qed.

(** A binding that is too short, or one of whose sixteen address components
    is not a number, gives no address. *)
Lemma ipv6_row_dropped (var_oid : string) :
  (length (oid_parts var_oid) < base_parts + 18)%nat
  ∨ (∃ idx, idx ∈ Py.slice (base_parts + 2) (base_parts + 18) (oid_parts var_oid)
            ∧ Py.int idx = None) →
  ∀ a, ipv6_row var_oid ≠ Ok (Some a).
Proof.
  intros Hbad a. unfold ipv6_row. fold (oid_parts var_oid).
  destruct (base_parts + 18 <=? length (oid_parts var_oid))%nat eqn:Hlen; [|done].
  destruct Hbad as [Hshort|(idx & Hin & Hidx)].
  { apply Nat.leb_le in Hlen. lia. }
  destruct (length _ =? 16)%nat; [|done].
  destruct (mapM_raises hex_of_index _ idx ValueError Hin) as [e ->]; [|done].
  unfold hex_of_index. by rewrite Hidx.
Qed.

(** A binding of the IPv6 table that is too short or not numeric is passed
    over wherever it stands in the walk: the addresses of the other bindings
    are returned as if it were not there, and nothing is raised. *)
Theorem fetch_ipv6_addresses_skips (before after : list SNMPVariable)
    (bad : SNMPVariable) :
  (length (oid_parts (oid bad)) < base_parts + 18)%nat
  ∨ (∃ idx, idx ∈ Py.slice (base_parts + 2) (base_parts + 18) (oid_parts (oid bad))
            ∧ Py.int idx = None) →
  fetch_ipv6_addresses (Some (before ++ bad :: after)%list)
  = fetch_ipv6_addresses (Some (before ++ after)%list).
Proof.
  intros Hbad. rewrite !fetch_ipv6_addresses_rows, !ipv6_rows_app. f_equal.
  simpl. pose proof (ipv6_row_dropped _ Hbad) as Hrow.
  by destruct (ipv6_row (oid bad)) as [[a|]|e]; [destruct (Hrow a)|..].
Qed.

Lemma fetch_ipv6_addresses_skips_witness :
  let good := mkVar "iso.3.6.1.2.1.4.34.1.3.1.2.32.1.13.184.0.1.0.0.0.0.0.0.0.0.0.1" "1" in
  let bad := mkVar "iso.3.6.1.2.1.4.34.1.3.1.2.32.1.13.184.0.1.0.0.0.0.0.x.0.0.0.1" "1" in
  ((length (oid_parts (oid bad)) < base_parts + 18)%nat
   ∨ (∃ idx, idx ∈ Py.slice (base_parts + 2) (base_parts + 18) (oid_parts (oid bad))
             ∧ Py.int idx = None))
  ∧ fetch_ipv6_addresses (Some ([good] ++ bad :: [good])%list)
    = fetch_ipv6_addresses (Some ([good] ++ [good])%list).
Proof.
  intros good bad.
  assert (H : (length (oid_parts (oid bad)) < base_parts + 18)%nat
              ∨ (∃ idx, idx ∈ Py.slice (base_parts + 2) (base_parts + 18)
                                (oid_parts (oid bad))
                        ∧ Py.int idx = None)).
  { right. exists "x". split; [|reflexivity].
    apply list_elem_of_lookup. exists 11%nat. reflexivity. }
  split; [exact H|]. exact (fetch_ipv6_addresses_skips [good] [good] bad H).
Defined.

Lemma ipv6_row_dotted (base : list N) (ifIndex addrType : N) (A : list N) :
  length base = 9%nat → length A = 16%nat → Forall (λ a, (a < 256)%N) A →
  ipv6_row (dotted (base ++ [ifIndex; addrType] ++ A))
  = Ok (Some (colon_hex A +:+ "/64")).
Proof.
  intros Hbase HA Hoctets.
  unfold ipv6_row. rewrite startswith_iso_dotted.
  rewrite split_dotted by (by destruct base).
  rewrite !fmap_app, !length_app, !length_fmap, Hbase, HA.
  change (base_parts + 18 <=? 9 + (length [ifIndex; addrType] + 16))%nat with true.
  cbv iota.
  assert (Py.slice (base_parts + 2) (base_parts + 18)
            ((pretty <$> base) ++ (pretty <$> [ifIndex; addrType]) ++ (pretty <$> A))
          = pretty <$> A) as ->.
  { unfold Py.slice. rewrite List.app_assoc, drop_app_length'.
    - apply take_ge. rewrite length_fmap. unfold base_parts. lia.
    - rewrite length_app, !length_fmap, Hbase. reflexivity. }
  rewrite length_fmap, HA. change (16 =? 16)%nat with true. cbv iota.
  rewrite mapM_hex_of_index by done.
  do 16 (destruct A as [|? A]; [discriminate HA|]).
  destruct A; [|discriminate HA]. reflexivity.
Qed.

(** A walk of the IPv6 address table whose bindings all have the nine
    components of the base, two more components and sixteen octets gives one
    address for each binding, in the order of the walk: the colon-hex
    grouping of its octets followed by ["/64"]. *)
Theorem fetch_ipv6_addresses_walk
    (rows : list (list N * (N * N) * list N * string)) :
  Forall ipv6_binding_ok rows →
  fetch_ipv6_addresses (Some (ipv6_binding <$> rows))
  = (λ row, colon_hex row.1.2 +:+ "/64") <$> rows.
Proof.
  intros Hrows. rewrite fetch_ipv6_addresses_rows.
  induction Hrows as [|[[[base [ifIndex addrType]] octets] val] rows Hrow _ IH]; [done|].
  destruct Hrow as (Hbase & Hlen & Hoct).
  rewrite !fmap_cons, ipv6_rows_cons.
  change (oid (ipv6_binding (base, (ifIndex, addrType), octets, val)))
    with (dotted (base ++ [ifIndex; addrType] ++ octets)%list).
  rewrite ipv6_row_dotted by done. rewrite ipv6_rows_acc, IH. reflexivity.
Qed.

Lemma fetch_ipv6_addresses_walk_witness :
  let rows :=
    [([3; 6; 1; 2; 1; 4; 34; 1; 3]%N, (1, 2)%N,
      [32; 1; 13; 184; 0; 1; 0; 0; 0; 0; 0; 0; 0; 0; 0; 1]%N, "1");
     ([3; 6; 1; 2; 1; 4; 34; 1; 3]%N, (2, 2)%N,
      [254; 128; 0; 0; 0; 0; 0; 0; 200; 5; 14; 255; 254; 44; 0; 8]%N, "1")] in
  Forall ipv6_binding_ok rows
  ∧ fetch_ipv6_addresses (Some (ipv6_binding <$> rows))
    = (λ row, colon_hex row.1.2 +:+ "/64") <$> rows.
Proof.
  intros rows.
  assert (H : Forall ipv6_binding_ok rows).
  { repeat constructor. }
  split; [exact H|]. exact (fetch_ipv6_addresses_walk rows H).
Defined.

End walks.

(** ** The interface table and the collection (NMsnmp.py) *)

Section interfaces.
Import NMsnmp.

Lemma status_rows_snoc names results var data :
  status_rows names (results ++ [var])%list data
  = let '(if_name, status) :=
      decode_interface_status (value var) names (if_index_of var) in
    if decide (Py.lower if_name ≠ "null0")
    then <[if_name := status]> (status_rows names results data)
    else status_rows names results data.
Proof. unfold status_rows. by rewrite foldl_snoc. Qed.

Lemma name_rows_snoc results var names :
  name_rows (results ++ [var])%list names
  = <[if_index_of var := value var]> (name_rows results names).
Proof. unfold name_rows. by rewrite foldl_snoc. Qed.

Lemma filter_snoc {A} (P : A → Prop) `{∀ x, Decision (P x)} (l : list A) (x : A) :
  filter P (l ++ [x])%list = (filter P l ++ if decide (P x) then [x] else [])%list.
Proof. by rewrite filter_app, filter_cons, filter_nil. Qed.

Lemma name_rows_last (results : list SNMPVariable) (if_index : string) :
  name_rows results ∅ !! if_index
  = value <$> last (filter (λ var, if_index_of var = if_index) results).
Proof.
  induction results as [|var results IH] using rev_ind.
  { apply lookup_empty. }
  rewrite name_rows_snoc, filter_snoc. case_decide as Hidx.
  - by rewrite Hidx, lookup_insert_eq, last_snoc.
  - by rewrite lookup_insert_ne, List.app_nil_r.
Qed.

Lemma status_rows_last (names : gmap string string) (results : list SNMPVariable)
    (if_name : string) :
  status_rows names results ∅ !! if_name
  = if decide (Py.lower if_name = "null0") then None
    else
      (λ var, (decode_interface_status (value var) names (if_index_of var)).2)
      <$> last (filter
                  (λ var, (decode_interface_status (value var) names
                             (if_index_of var)).1 = if_name)
                  results).
Proof.
  induction results as [|var results IH] using rev_ind.
  { unfold status_rows. simpl. rewrite lookup_empty. by case_decide. }
  rewrite status_rows_snoc, filter_snoc.
  destruct (decode_interface_status (value var) names (if_index_of var))
    as [name status] eqn:Hdecode.
  cbv beta iota. change ((name, status).1) with name.
  destruct (decide (name = if_name)) as [->|Hne].
  - rewrite last_snoc.
    destruct (decide (Py.lower if_name = "null0")) as [Hnull|Hnull].
    + destruct (decide (Py.lower if_name ≠ "null0")) as [Hc|_]; [by destruct Hc|].
      exact IH.
    + destruct (decide (Py.lower if_name ≠ "null0")) as [_|Hc]; [|by destruct Hc].
      rewrite lookup_insert_eq. cbn [fmap option_fmap option_map].
      by rewrite Hdecode.
  - rewrite List.app_nil_r, <- IH.
    destruct (decide (Py.lower name ≠ "null0")); cbv beta iota;
      [by rewrite lookup_insert_ne|done].
Qed.

(** The table of names keeps, for each index, the value of the last
    binding of the walk that ends in this index; the dictionary returned
    holds, for each name that is not [Null0], the label of the last binding
    of the status walk that resolves to this name, and nothing else. *)
Theorem fetch_interface_status_last
    (name_results status_results : option (list SNMPVariable)) :
  (∀ if_index,
     name_rows (default [] name_results) ∅ !! if_index
     = value <$> last (filter (λ var, if_index_of var = if_index)
                         (default [] name_results)))
  ∧ (∀ if_name,
       fetch_interface_status name_results status_results !! if_name
       = if decide (Py.lower if_name = "null0") then None
         else
           (λ var, (decode_interface_status (value var)
                      (name_rows (default [] name_results) ∅) (if_index_of var)).2)
           <$> last (filter
                       (λ var, (decode_interface_status (value var)
                                  (name_rows (default [] name_results) ∅)
                                  (if_index_of var)).1 = if_name)
                       (default [] status_results))).
Proof.
  split.
  - intros if_index. apply name_rows_last.
  - intros if_name. apply status_rows_last.
Qed.

Lemma status_label_in (status_code : string) :
  default "unknown" (INTERFACE_STATUS !! status_code) ∈ status_labels.
Proof.
  destruct (INTERFACE_STATUS !! status_code) as [label|] eqn:Hlabel; simpl.
  - apply elem_of_list_to_map_2 in Hlabel.
    unfold status_labels.
    repeat (apply elem_of_cons in Hlabel as [Heq|Hlabel];
            [injection Heq as _ ->; rewrite !elem_of_cons; tauto|]).
    by apply elem_of_nil in Hlabel.
  - unfold status_labels. rewrite !elem_of_cons. tauto.
Qed.

(** Whatever the two walks return, the labels of the dictionary are among
    the seven of the table, and a name missing from the table of names is
    written ["if"] followed by the index: when the walk of the names fails
    or is empty, every key is of this form, the index being that of a
    binding of the status walk. *)
Theorem fetch_interface_status_entries
    (name_results status_results : option (list SNMPVariable))
    (if_name status : string) :
  fetch_interface_status name_results status_results !! if_name = Some status →
  status ∈ status_labels
  ∧ (default [] name_results = [] →
       ∃ var, var ∈ default [] status_results
              ∧ if_name = "if" +:+ if_index_of var).
Proof.
  intros Hlookup.
  unfold fetch_interface_status in Hlookup.
  rewrite status_rows_last in Hlookup. case_decide; [done|].
  apply fmap_Some in Hlookup as (var & Hvar & ->).
  apply last_Some_elem_of, list_elem_of_filter in Hvar as [Hname Hin].
  split; [apply status_label_in|].
  intros Hempty. exists var. split; [done|].
  rewrite Hempty in Hname. simpl in Hname. by rewrite lookup_empty in Hname.
Qed.

Lemma fetch_interface_status_entries_witness :
  fetch_interface_status None (Some [mkVar "x.1" "1"; mkVar "x.2" "9"]) !! "if2"
  = Some "unknown"
  ∧ "unknown" ∈ status_labels
  ∧ (default [] (@None (list SNMPVariable)) = [] →
       ∃ var, var ∈ default [] (Some [mkVar "x.1" "1"; mkVar "x.2" "9"])
              ∧ "if2" = "if" +:+ if_index_of var).
Proof.
  assert (H : fetch_interface_status None (Some [mkVar "x.1" "1"; mkVar "x.2" "9"])
              !! "if2" = Some "unknown") by (vm_compute; reflexivity).
  split; [exact H|]. exact (fetch_interface_status_entries _ _ _ _ H).
Defined.

(** *** [fetch_cpu_utilization] *)

Lemma pretty_N_char_digit (d : N) :
  (d < 10)%N → Py.is_digit (pretty_N_char d) = true
               ∧ Py.digit_val (pretty_N_char d) = Z.of_N d.
Proof.
  intros Hd.
  assert (d = 0 ∨ d = 1 ∨ d = 2 ∨ d = 3 ∨ d = 4 ∨ d = 5 ∨ d = 6 ∨ d = 7
          ∨ d = 8 ∨ d = 9)%N as Hcases by lia.
  by repeat destruct Hcases as [->|Hcases]; try subst d.
Qed.

Lemma int_digits_pretty_go (x : N) (s : string) :
  ∃ m : Z, ∀ acc after,
    Py.int_digits acc after (pretty_N_go x s)
    = if decide (x = 0)%N then Py.int_digits acc after s
      else Py.int_digits (acc * m + Z.of_N x) true s.
Proof.
  revert s. induction (N.lt_wf_0 x) as [x _ IH]; intros s.
  destruct (decide (x = 0)%N) as [->|Hx].
  { exists 1. intros acc after. by rewrite pretty_N_go_0. }
  destruct (IH (x `div` 10)%N ltac:(apply N.div_lt; lia)
              (String (pretty_N_char (x `mod` 10)) s)) as [m Hm].
  destruct (pretty_N_char_digit (x `mod` 10)%N) as [Hdigit Hval];
    [apply N.mod_lt; lia|].
  pose proof (N.div_mod x 10 ltac:(lia)) as Hdiv.
  exists (if decide (x `div` 10 = 0)%N then 10 else 10 * m).
  intros acc after. rewrite pretty_N_go_step, Hm by lia.
  case_decide as Hq; rewrite int_digits_cons, Hdigit, Hval; f_equal; lia.
Qed.

Lemma rstrip_id (s : string) :
  all_chars (λ c, negb (Py.is_space c)) s = true → Py.rstrip s = s.
Proof.
  induction s as [|c s IH]; [done|]. simpl all_chars.
  intros [Hc Hs]%andb_true_iff. apply negb_true_iff in Hc.
  rewrite rstrip_cons, IH, Hc by done. by destruct s.
Qed.

(** [int] reads back the decimal form of a natural number. *)
Lemma int_pretty (n : N) : Py.int (pretty n) = Some (Z.of_N n).
Proof.
  pose proof (pretty_N_digits n) as Hdigits.
  pose proof (pretty_N_nonempty n) as Hne.
  assert (Py.int_digits 0 false (pretty n) = Some (Z.of_N n)) as Hint.
  { unfold pretty, pretty_N. case_decide as Hn; [by subst n|].
    destruct (int_digits_pretty_go n "") as [m Hm]. rewrite Hm.
    rewrite decide_False by done. simpl. f_equal; lia. }
  unfold Py.int.
  assert (all_chars (λ c, negb (Py.is_space c)) (pretty n) = true) as Hspace.
  { apply (all_chars_impl Py.is_digit); [|done].
    intros c Hc. by rewrite digit_not_space. }
  destruct (pretty n) as [|c s] eqn:Htext; [done|].
  simpl in Hdigits, Hspace.
  apply andb_true_iff in Hdigits as [Hc _].
  apply andb_true_iff in Hspace as [Hcs Hss]. apply negb_true_iff in Hcs.
  change (Py.lstrip (String c s)) with (if Py.is_space c then Py.lstrip s else String c s).
  rewrite Hcs, rstrip_id by (simpl; by rewrite Hcs, Hss).
  destruct (Ascii.eqb_spec c "-") as [->|_]; [discriminate Hc|].
  destruct (Ascii.eqb_spec c "+") as [->|_]; [discriminate Hc|].
  exact Hint.
Qed.


(** *** [collect_network_data] *)

Lemma collect_step_lookup
    (snmp_walk : string → string → string → option (list SNMPVariable))
    (routers : list (string * (string * string)))
    (addresses0 : gmap string router_addresses)
    (interfaces0 : gmap string (gmap string string)) :
  NoDup routers.*1 →
  let '(addresses, interfaces) :=
    foldl (λ '(addresses_data, interface_data) '(router_name, (host, community)),
             (<[router_name :=
                  mkAddresses
                    (fetch_ipv4_addresses (snmp_walk host community OID_IPV4_ADDRESS))
                    (fetch_ipv6_addresses (snmp_walk host community OID_IPV6_ADDRESS))]>
                addresses_data,
              <[router_name :=
                  fetch_interface_status
                    (snmp_walk host community OID_INTERFACE_NAME)
                    (snmp_walk host community OID_INTERFACE_STATUS)]> interface_data))
      (addresses0, interfaces0) routers in
  (∀ name host community, (name, (host, community)) ∈ routers →
     addresses !! name
     = Some (mkAddresses
               (fetch_ipv4_addresses (snmp_walk host community OID_IPV4_ADDRESS))
               (fetch_ipv6_addresses (snmp_walk host community OID_IPV6_ADDRESS)))
     ∧ interfaces !! name
       = Some (fetch_interface_status
                 (snmp_walk host community OID_INTERFACE_NAME)
                 (snmp_walk host community OID_INTERFACE_STATUS)))
  ∧ (∀ name, name ∉ routers.*1 →
       addresses !! name = addresses0 !! name
       ∧ interfaces !! name = interfaces0 !! name).
Proof.
  revert addresses0 interfaces0.
  induction routers as [|[name0 [host0 community0]] routers IH];
    intros addresses0 interfaces0 Hnd.
  { simpl. split; [|done]. intros ??? Hin. by apply elem_of_nil in Hin. }
  rewrite fmap_cons in Hnd. apply NoDup_cons in Hnd as [Hfresh Hnd].
  simpl foldl.
  specialize (IH (<[name0 :=
                      mkAddresses
                        (fetch_ipv4_addresses (snmp_walk host0 community0 OID_IPV4_ADDRESS))
                        (fetch_ipv6_addresses (snmp_walk host0 community0 OID_IPV6_ADDRESS))]>
                    addresses0)
                 (<[name0 :=
                      fetch_interface_status
                        (snmp_walk host0 community0 OID_INTERFACE_NAME)
                        (snmp_walk host0 community0 OID_INTERFACE_STATUS)]> interfaces0)
                 Hnd).
  destruct (foldl _ _ routers) as [addresses interfaces].
  destruct IH as [Hin Hout]. split.
  - intros name host community [[= -> -> ->]|Hel]%elem_of_cons.
    + destruct (Hout name0 Hfresh) as [-> ->]. by rewrite !lookup_insert_eq.
    + by apply Hin.
  - intros name [Hne Hname]%not_elem_of_cons.
    destruct (Hout name Hname) as [-> ->]. by rewrite !lookup_insert_ne.
Qed.

(** Every router of the table is in both dictionaries with what its own
    walks give, whatever the network answers, and no other key is: a router
    that does not answer is there with two empty lists and an empty
    dictionary. *)
Theorem collect_network_data_routers
    (snmp_walk : string → string → string → option (list SNMPVariable)) :
  let '(addresses_data, interface_data) := collect_network_data snmp_walk in
  dom addresses_data = list_to_set ROUTERS.*1
  ∧ dom interface_data = list_to_set ROUTERS.*1
  ∧ ∀ name host community, (name, (host, community)) ∈ ROUTERS →
      addresses_data !! name
      = Some (mkAddresses
                (fetch_ipv4_addresses (snmp_walk host community OID_IPV4_ADDRESS))
                (fetch_ipv6_addresses (snmp_walk host community OID_IPV6_ADDRESS)))
      ∧ interface_data !! name
        = Some (fetch_interface_status
                  (snmp_walk host community OID_INTERFACE_NAME)
                  (snmp_walk host community OID_INTERFACE_STATUS))
      ∧ (snmp_walk host community OID_IPV4_ADDRESS = None →
         snmp_walk host community OID_IPV6_ADDRESS = None →
         snmp_walk host community OID_INTERFACE_NAME = None →
         snmp_walk host community OID_INTERFACE_STATUS = None →
         addresses_data !! name = Some (mkAddresses [] [])
         ∧ interface_data !! name = Some ∅).
Proof.
  assert (NoDup ROUTERS.*1) as Hnd by (apply (bool_decide_unpack _); vm_compute; exact I).
  pose proof (collect_step_lookup snmp_walk ROUTERS ∅ ∅ Hnd) as Hstep.
  unfold collect_network_data.
  destruct (foldl _ _ ROUTERS) as [addresses interfaces].
  destruct Hstep as [Hin Hout].
  assert (∀ {V} (m : gmap string V),
            (∀ name host community, (name, (host, community)) ∈ ROUTERS →
               is_Some (m !! name)) →
            (∀ name, name ∉ ROUTERS.*1 → m !! name = None) →
            dom m = list_to_set ROUTERS.*1) as Hdom.
  { intros V m Hsome Hnone. apply set_eq. intros name.
    rewrite elem_of_dom, elem_of_list_to_set. split.
    - intros Hm. destruct (decide (name ∈ ROUTERS.*1)) as [|Hno]; [done|].
      rewrite (Hnone name Hno) in Hm. by destruct Hm.
    - intros ([name' [host community]] & -> & Hel)%list_elem_of_fmap.
      by eapply Hsome. }
  split; [|split].
  - apply Hdom.
    + intros name host community Hel. destruct (Hin _ _ _ Hel) as [-> _]. eauto.
    + intros name Hno. destruct (Hout name Hno) as [-> _]. apply lookup_empty.
  - apply Hdom.
    + intros name host community Hel. destruct (Hin _ _ _ Hel) as [_ ->]. eauto.
    + intros name Hno. destruct (Hout name Hno) as [_ ->]. apply lookup_empty.
  - intros name host community Hel. destruct (Hin _ _ _ Hel) as [Ha Hi].
    split; [done|]. split; [done|].
    intros H4 H6 Hn Hs. rewrite Ha, Hi, H4, H6, Hn, Hs. done.
Qed.

Lemma collect_network_data_routers_witness :
  let snmp_walk (host community oid : string) : option (list SNMPVariable) :=
    if decide (host = "198.51.1.3" ∧ oid = OID_IPV4_ADDRESS)
    then Some [mkVar "iso.3.6.1.2.1.4.20.1.1.198.51.1.3" "198.51.1.3"]
    else None in
  ("R2", ("198.51.1.3", "public")) ∈ ROUTERS
  ∧ (collect_network_data snmp_walk).1 !! "R2"
    = Some (mkAddresses ["198.51.1.3/24"] [])
  ∧ (collect_network_data snmp_walk).2 !! "R2" = Some ∅.
Proof.
  intros snmp_walk.
  assert (Hin : ("R2", ("198.51.1.3", "public")) ∈ ROUTERS)
    by (unfold ROUTERS; rewrite !elem_of_cons; tauto).
  split; [exact Hin|].
  pose proof (collect_network_data_routers snmp_walk) as H.
  destruct (collect_network_data snmp_walk) as [addresses_data interface_data].
  destruct H as (_ & _ & H).
  destruct (H _ _ _ Hin) as (Ha & Hi & _). split; [exact Ha|exact Hi].
Defined.

End interfaces.
